(** * OLAF CANopen node: object dictionary access, PDO engine, EMCY, run loop

    A shallow embedding of [olaf/canopen/node.py] (class [Node]) and of the
    COB-ID repair loop of [olaf/_internals/app.py] ([App.setup]), with the
    properties of the specification stated over it. *)

From Stdlib Require Import ZArith QArith Qround Bool List String Ascii Lia.
From Stdlib.Strings Require Byte.
From stdpp Require Import base option list gmap strings.

Local Open Scope string_scope.
Local Open Scope Z_scope.

(** ** Python values and exceptions *)

Module Py.

(** The exceptions the embedded code can raise or swallow. *)
Inductive exn :=
  | ValueError
  | TypeError
  | KeyError
  | IndexError
  | AttributeError
  | ZeroDivisionError
  | OverflowError
  | NameError
  | NetworkError.

#[global] Instance exn_eq_dec : EqDecision exn.
Proof. solve_decision. Defined.

(** The outcome of evaluating an expression: a value or a raised exception. *)
Inductive res (A : Type) :=
  | Ok (a : A)
  | Raise (e : exn).
Arguments Ok {A} a.
Arguments Raise {A} e.

Definition rbind {A B} (r : res A) (k : A -> res B) : res B :=
  match r with
  | Ok a => k a
  | Raise e => Raise e
  end.

(** The values that travel through the object dictionary helpers
    ([Union[int, str, float, bytes, bool]] and [None]).  A float is
    represented by the rational it denotes; no statement below depends on
    rounding. *)
Inductive val :=
  | VNone
  | VBool (b : bool)
  | VInt (z : Z)
  | VFloat (q : Q)
  | VStr (s : string)
  | VBytes (b : list Byte.byte).

(** [isinstance(v, int)]: [bool] is a subclass of [int]. *)
Definition isinstance_int (v : val) : bool :=
  match v with
  | VInt _ | VBool _ => true
  | _ => false
  end.

(** [type(v) == int]: exact type, so [bool] is excluded. *)
Definition type_is_int (v : val) : bool :=
  match v with
  | VInt _ => true
  | _ => false
  end.

(** The integer an [int] or [bool] stands for in arithmetic. *)
Definition int_of (v : val) : option Z :=
  match v with
  | VInt z => Some z
  | VBool b => Some (if b then 1 else 0)
  | _ => None
  end.

(** The number a numeric value stands for. *)
Definition num_of (v : val) : option Q :=
  match v with
  | VInt z => Some (inject_Z z)
  | VBool b => Some (inject_Z (if b then 1 else 0))
  | VFloat q => Some q
  | _ => None
  end.

#[global] Instance byte_eq_dec : EqDecision Byte.byte := Byte.byte_eq_dec.

Definition bytes_eqb (a b : list Byte.byte) : bool :=
  bool_decide (a = b).

(** [a == b] on values. Numbers compare by value across int, bool, float. *)
Definition eqb (a b : val) : bool :=
  match num_of a, num_of b with
  | Some x, Some y => Qeq_bool x y
  | _, _ =>
      match a, b with
      | VNone, VNone => true
      | VStr s, VStr t => String.eqb s t
      | VBytes s, VBytes t => bytes_eqb s t
      | _, _ => false
      end
  end.

(** Lexicographic [<] on byte strings. *)
Fixpoint bytes_ltb (a b : list Byte.byte) : bool :=
  match a, b with
  | _, [] => false
  | [], _ :: _ => true
  | x :: a', y :: b' =>
      let n := Byte.to_N x in
      let m := Byte.to_N y in
      if N.ltb n m then true
      else if N.ltb m n then false
      else bytes_ltb a' b'
  end.

(** [a < b]: defined on two numbers, two strings and two byte strings;
    [TypeError] otherwise. *)
Definition lt (a b : val) : res bool :=
  match num_of a, num_of b with
  | Some x, Some y => Ok (negb (Qle_bool y x))
  | _, _ =>
      match a, b with
      | VStr s, VStr t => Ok (String.ltb s t)
      | VBytes s, VBytes t => Ok (bytes_ltb s t)
      | _, _ => Raise TypeError
      end
  end.

(** [a > b] *)
Definition gt (a b : val) : res bool := lt b a.

Fixpoint str_repeat (n : nat) (s : string) : string :=
  match n with
  | O => EmptyString
  | S n' => String.append s (str_repeat n' s)
  end.

(** [a * b]: numbers multiply; a string or byte string is repeated by an
    int on either side; [TypeError] otherwise. *)
Definition mul (a b : val) : res val :=
  match a, b with
  | VStr s, _ =>
      match int_of b with
      | Some n => Ok (VStr (str_repeat (Z.to_nat n) s))
      | None => Raise TypeError
      end
  | _, VStr s =>
      match int_of a with
      | Some n => Ok (VStr (str_repeat (Z.to_nat n) s))
      | None => Raise TypeError
      end
  | VBytes s, _ =>
      match int_of b with
      | Some n => Ok (VBytes (List.concat (List.repeat s (Z.to_nat n))))
      | None => Raise TypeError
      end
  | _, VBytes s =>
      match int_of a with
      | Some n => Ok (VBytes (List.concat (List.repeat s (Z.to_nat n))))
      | None => Raise TypeError
      end
  | _, _ =>
      match int_of a, int_of b with
      | Some x, Some y => Ok (VInt (x * y))
      | _, _ =>
          match num_of a, num_of b with
          | Some x, Some y => Ok (VFloat (Qmult x y))
          | _, _ => Raise TypeError
          end
      end
  end.

(** [a << n] on ints: a negative count raises [ValueError]. *)
Definition shl (a n : Z) : res Z :=
  if n <? 0 then Raise ValueError else Ok (Z.shiftl a n).

(** [a >> n] on ints. *)
Definition shr (a n : Z) : res Z :=
  if n <? 0 then Raise ValueError else Ok (Z.shiftr a n).

(** [a & b] on values: ints and bools only. *)
Definition and_ (a b : val) : res Z :=
  match int_of a, int_of b with
  | Some x, Some y => Ok (Z.land x y)
  | _, _ => Raise TypeError
  end.

(** [a % b] on values. On ints the sign follows the divisor ([Z.modulo]);
    with a float operand the result is [a - b * floor(a / b)]; a zero
    divisor raises. *)
Definition mod_ (a b : val) : res val :=
  match int_of a, int_of b with
  | Some x, Some y =>
      if y =? 0 then Raise ZeroDivisionError else Ok (VInt (x mod y))
  | _, _ =>
      match num_of a, num_of b with
      | Some x, Some y =>
          if Qeq_bool y (inject_Z 0) then Raise ZeroDivisionError
          else Ok (VFloat (Qminus x (Qmult y (inject_Z (Qfloor (Qdiv x y))))))
      | _, _ => Raise TypeError
      end
  end.

(** [l[i]] on a list: negative indices count from the end. *)
Definition index {A} (l : list A) (i : Z) : res A :=
  let n := Z.of_nat (length l) in
  let j := if i <? 0 then i + n else i in
  if (j <? 0) || (n <=? j) then Raise IndexError
  else match l !! Z.to_nat j with
       | Some x => Ok x
       | None => Raise IndexError
       end.

(** [min(l)] on a list of ints: the empty list raises [ValueError]. *)
Definition min_list (l : list Z) : res Z :=
  match l with
  | [] => Raise ValueError
  | x :: l' => Ok (fold_left Z.min l' x)
  end.

End Py.

Import Py.

Notation "'let!' x ':=' r 'in' k" := (rbind r (fun x => k))
  (at level 10, x name, r at level 100, k at level 200).

(** ** The object dictionary *)

(** Data type codes of [canopen.objectdictionary] (the CiA 301 codes) and
    the tuples built from them. The library is not part of the repository;
    the code only tests membership in these tuples and equality with the
    codes. *)
Definition BOOLEAN : Z := 0x01.
Definition INTEGER8 : Z := 0x02.
Definition INTEGER16 : Z := 0x03.
Definition INTEGER32 : Z := 0x04.
Definition UNSIGNED8 : Z := 0x05.
Definition UNSIGNED16 : Z := 0x06.
Definition UNSIGNED32 : Z := 0x07.
Definition REAL32 : Z := 0x08.
Definition VISIBLE_STRING : Z := 0x09.
Definition OCTET_STRING : Z := 0x0A.
Definition DOMAIN : Z := 0x0F.
Definition REAL64 : Z := 0x11.
Definition INTEGER64 : Z := 0x15.
Definition UNSIGNED64 : Z := 0x1B.

Definition INTEGER_TYPES : list Z :=
  [INTEGER8; INTEGER16; INTEGER32; INTEGER64;
   UNSIGNED8; UNSIGNED16; UNSIGNED32; UNSIGNED64].
Definition FLOAT_TYPES : list Z := [REAL32; REAL64].

(** The constants that appear as operands of [in]: an int, or a tuple of
    ints. [==] between them is by value within a kind and [False] across
    kinds (an int never equals a tuple). *)
Inductive const :=
  | CInt (c : Z)
  | CTuple (t : list Z).

Definition const_eqb (a b : const) : bool :=
  match a, b with
  | CInt x, CInt y => x =? y
  | CTuple s, CTuple t => bool_decide (s = t)
  | _, _ => false
  end.

(** [x in c] for a sequence [c] of constants: some item equals [x]. *)
Definition py_in (x : const) (c : list const) : bool :=
  existsb (const_eqb x) c.

(** [x in t] for a tuple of ints [t]. *)
Definition in_tuple (x : Z) (t : list Z) : bool :=
  py_in (CInt x) (map CInt t).

Module ODVariable.
(** The attributes of a [canopen] [ODVariable] that the node reads or
    writes. [bit_definitions] maps a field name to its list of bit
    positions. *)
Record t := mk {
  name : string;
  data_type : Z;
  value : val;
  default : val;
  min : val;
  max : val;
  factor : val;
  bit_definitions : gmap string (list Z);
}.

Definition set_value (x : val) (v : t) : t :=
  {| name := name v; data_type := data_type v; value := x;
     default := default v; min := min v; max := max v;
     factor := factor v; bit_definitions := bit_definitions v |}.
End ODVariable.

(** An entry of the dictionary: a variable, or an array or record holding
    variables by subindex (an array is looked up like a record, by the
    subindices it holds). *)
Inductive ODEntry :=
  | ODVar (v : ODVariable.t)
  | ODCompound (subs : gmap Z ODVariable.t).

(** [od[index]] *)
Definition od_getitem (od : gmap Z ODEntry) (index : Z) : res ODEntry :=
  match od !! index with
  | Some e => Ok e
  | None => Raise KeyError
  end.

(** [entry[subindex]]: a variable is not subscriptable. *)
Definition entry_getitem (e : ODEntry) (subindex : Z) : res ODVariable.t :=
  match e with
  | ODVar _ => Raise TypeError
  | ODCompound subs =>
      match subs !! subindex with
      | Some v => Ok v
      | None => Raise KeyError
      end
  end.

(** Attribute access ([.value], [.data_type], ...) on an entry: arrays and
    records do not have the attributes of a variable. *)
Definition as_variable (e : ODEntry) : res ODVariable.t :=
  match e with
  | ODVar v => Ok v
  | ODCompound _ => Raise AttributeError
  end.

(** [isinstance(entry, ODVariable)] *)
Definition is_ODVariable (e : ODEntry) : bool :=
  match e with ODVar _ => true | ODCompound _ => false end.

(** [od[index][subindex]] *)
Definition od_getsub (od : gmap Z ODEntry) (index subindex : Z)
  : res ODVariable.t :=
  let! e := od_getitem od index in entry_getitem e subindex.

(** The effect of [obj.value = x] on the dictionary, for the object found at
    [index] (and [subindex]): objects are shared, so the assignment is seen
    by every later lookup. *)
Definition od_assign_value (od : gmap Z ODEntry) (index : Z)
    (subindex : option Z) (x : val) : gmap Z ODEntry :=
  match subindex with
  | None =>
      alter (fun e => match e with
                      | ODVar v => ODVar (ODVariable.set_value x v)
                      | ODCompound subs => ODCompound subs
                      end) index od
  | Some j =>
      alter (fun e => match e with
                      | ODVar v => ODVar v
                      | ODCompound subs =>
                          ODCompound (alter (ODVariable.set_value x) j subs)
                      end) index od
  end.

(** ** The node *)

(** [CanState]: the states of the CAN bus. *)
Inductive CanState :=
  | BUS_UP_NETWORK_UP
  | BUS_UP_NETWORK_DOWN
  | BUS_DOWN
  | BUS_NOT_FOUND.

(** [NodeStop]: the stop commands, an [IntEnum]. *)
Inductive NodeStop :=
  | SOFT_RESET
  | HARD_RESET
  | FACTORY_RESET
  | POWER_OFF.

Definition NodeStop_value (r : NodeStop) : Z :=
  match r with
  | SOFT_RESET => 1
  | HARD_RESET => 2
  | FACTORY_RESET => 3
  | POWER_OFF => 4
  end.

(** The members of [EmcyCode] that the node itself sends. The enumeration is
    declared in [olaf/canopen/__init__.py]; the integer behind a member is
    left open ([EmcyCode_value] of [Stack] below). *)
Inductive EmcyCode :=
  | PROTOCOL_PDO_LEN_EXCEEDED
  | COMM_RECOVERED_BUS.

(** The [code] argument of [send_emcy]: [Union[EmcyCode, int]]. *)
Inductive emcy_arg :=
  | OfEnum (c : EmcyCode)
  | OfInt (z : Z).

(** The [canopen.Network] object: a mapping of nodes (truthy when it holds
    at least one) with a connection. *)
Record Network := mkNetwork {
  net_nodes : nat;
  net_connected : bool;
}.

(** The [canopen.LocalNode] object, as far as the node looks into it. *)
Record LocalNode := mkLocalNode {
  nmt_state : string;
}.

(** Calls that leave the node: to the CANopen stack and to the system. *)
Inductive Call :=
  | NetworkSendMessage (cob_id : Z) (data : list Byte.byte)
  | EmcySend (code : Z) (register : val) (data : list Byte.byte)
  | NetworkDisconnect
  | NetworkSubscribeSync
  | StartHeartbeat (interval : val)
  | TimerStop (name : string)
  | IpLinkReset.

(** The attributes of a [Node] instance. [_od_node_id] is [self._od.node_id];
    [_tpdo_timers] holds the timers by name; [bus_type] is the first word of
    [self._bus.channel_info]; [calls] records the outgoing calls, oldest
    first. *)
Record Node := mkNode {
  _od : gmap Z ODEntry;
  _od_node_id : option Z;
  _network : option Network;
  _node : option LocalNode;
  _syncs : Z;
  _reset : NodeStop;
  _event : bool;
  _bus_state : CanState;
  first_bus_reset : bool;
  _tpdo_timers : list string;
  bus_type : string;
  calls : list Call;
}.

Definition set_od (f : gmap Z ODEntry -> gmap Z ODEntry) (s : Node) : Node :=
  mkNode (f (_od s)) (_od_node_id s) (_network s) (_node s) (_syncs s)
         (_reset s) (_event s) (_bus_state s) (first_bus_reset s)
         (_tpdo_timers s) (bus_type s) (calls s).
Definition set_od_node_id (x : option Z) (s : Node) : Node :=
  mkNode (_od s) x (_network s) (_node s) (_syncs s)
         (_reset s) (_event s) (_bus_state s) (first_bus_reset s)
         (_tpdo_timers s) (bus_type s) (calls s).
Definition set_network (x : option Network) (s : Node) : Node :=
  mkNode (_od s) (_od_node_id s) x (_node s) (_syncs s)
         (_reset s) (_event s) (_bus_state s) (first_bus_reset s)
         (_tpdo_timers s) (bus_type s) (calls s).
Definition set_node (x : option LocalNode) (s : Node) : Node :=
  mkNode (_od s) (_od_node_id s) (_network s) x (_syncs s)
         (_reset s) (_event s) (_bus_state s) (first_bus_reset s)
         (_tpdo_timers s) (bus_type s) (calls s).
Definition set_syncs (x : Z) (s : Node) : Node :=
  mkNode (_od s) (_od_node_id s) (_network s) (_node s) x
         (_reset s) (_event s) (_bus_state s) (first_bus_reset s)
         (_tpdo_timers s) (bus_type s) (calls s).
Definition set_reset (x : NodeStop) (s : Node) : Node :=
  mkNode (_od s) (_od_node_id s) (_network s) (_node s) (_syncs s)
         x (_event s) (_bus_state s) (first_bus_reset s)
         (_tpdo_timers s) (bus_type s) (calls s).
Definition set_event (x : bool) (s : Node) : Node :=
  mkNode (_od s) (_od_node_id s) (_network s) (_node s) (_syncs s)
         (_reset s) x (_bus_state s) (first_bus_reset s)
         (_tpdo_timers s) (bus_type s) (calls s).
Definition set_bus_state (x : CanState) (s : Node) : Node :=
  mkNode (_od s) (_od_node_id s) (_network s) (_node s) (_syncs s)
         (_reset s) (_event s) x (first_bus_reset s)
         (_tpdo_timers s) (bus_type s) (calls s).
Definition set_first_bus_reset (x : bool) (s : Node) : Node :=
  mkNode (_od s) (_od_node_id s) (_network s) (_node s) (_syncs s)
         (_reset s) (_event s) (_bus_state s) x
         (_tpdo_timers s) (bus_type s) (calls s).
Definition set_tpdo_timers (x : list string) (s : Node) : Node :=
  mkNode (_od s) (_od_node_id s) (_network s) (_node s) (_syncs s)
         (_reset s) (_event s) (_bus_state s) (first_bus_reset s)
         x (bus_type s) (calls s).
Definition call (c : Call) (s : Node) : Node :=
  mkNode (_od s) (_od_node_id s) (_network s) (_node s) (_syncs s)
         (_reset s) (_event s) (_bus_state s) (first_bus_reset s)
         (_tpdo_timers s) (bus_type s) (calls s ++ [c]).

(** Methods of [Node]: they read and update the instance and either return
    or raise; the instance keeps the updates made before a raise. *)
Definition M (A : Type) : Type := Node -> res A * Node.

Definition ret {A} (a : A) : M A := fun s => (Ok a, s).
Definition raise {A} (e : exn) : M A := fun s => (Raise e, s).
Definition lift {A} (r : res A) : M A := fun s => (r, s).
Definition gets {A} (f : Node -> A) : M A := fun s => (Ok (f s), s).
Definition modify (f : Node -> Node) : M unit := fun s => (Ok tt, f s).
Definition bind {A B} (m : M A) (k : A -> M B) : M B :=
  fun s =>
    match m s with
    | (Ok a, s') => k a s'
    | (Raise e, s') => (Raise e, s')
    end.

(** [try: m  except Exception: pass] *)
Definition try_pass (m : M unit) : M unit :=
  fun s =>
    match m s with
    | (Ok a, s') => (Ok a, s')
    | (Raise _, s') => (Ok tt, s')
    end.

Notation "'do!' x ':=' m 'in' k" := (bind m (fun x => k))
  (at level 10, x name, m at level 100, k at level 200).
Notation "m ';;' k" := (bind m (fun _ => k))
  (at level 100, k at level 200, right associativity).

(** A method keeps the stop state when it leaves the event and the reset
    disposition as they are; it is total when it never raises. *)
Definition keeps_stop {A} (m : M A) : Prop :=
  forall self,
    _event (snd (m self)) = _event self /\ _reset (snd (m self)) = _reset self.

Definition total {A} (m : M A) : Prop :=
  forall self, exists a, fst (m self) = Ok a.

(** [for x in l: body x] *)
Fixpoint for_each {A} (l : list A) (body : A -> M unit) : M unit :=
  match l with
  | [] => ret tt
  | x :: l' => body x ;; for_each l' body
  end.

(** [range(n)] *)
Definition range (n : Z) : list Z := map Z.of_nat (seq 0 (Z.to_nat n)).

(** ** Object dictionary helpers of [Node] *)

(** [Node.od_get_obj] *)
Definition od_get_obj (index : Z) (subindex : option Z) (self : Node)
  : res ODEntry :=
  match subindex with
  | None => od_getitem (_od self) index
  | Some j => let! v := od_getsub (_od self) index j in Ok (ODVar v)
  end.

(** [Node.od_read] *)
Definition od_read (index : Z) (subindex : option Z) (self : Node)
  : res val :=
  let! e := od_get_obj index subindex self in
  let! obj := as_variable e in
  let value := ODVariable.value obj in
  if py_in (CInt (ODVariable.data_type obj))
           [CTuple INTEGER_TYPES; CTuple FLOAT_TYPES]
  then
    if negb (Py.eqb (ODVariable.factor obj) (VInt 1))
    then Py.mul value (ODVariable.factor obj)
    else Ok value
  else Ok value.

(** [obj.bit_definitions[field]] *)
Definition bits_of (obj : ODVariable.t) (field : string) : res (list Z) :=
  match ODVariable.bit_definitions obj !! field with
  | Some bits => Ok bits
  | None => Raise KeyError
  end.

(** The loop of [od_read_bitfield]: [i] runs over the items of [bits] and
    the body indexes [bits] with it. *)
Fixpoint read_bitfield_loop (obj_value : val) (bits : list Z)
    (todo : list Z) (value : Z) : res Z :=
  match todo with
  | [] => Ok value
  | i :: rest =>
      let! b := Py.index bits i in
      let! m := Py.shl 1 b in
      let! tmp := Py.and_ obj_value (VInt m) in
      let! t := Py.shr tmp b in
      read_bitfield_loop obj_value bits rest (Z.lor value t)
  end.

(** [Node.od_read_bitfield] *)
Definition od_read_bitfield (index : Z) (subindex : option Z)
    (field : string) (self : Node) : res Z :=
  let! e := od_get_obj index subindex self in
  let! obj := as_variable e in
  let! bits := bits_of obj field in
  read_bitfield_loop (ODVariable.value obj) bits bits 0.

(** The range check of [_var_write], the same in its two numeric branches. *)
Definition check_limits (obj : ODVariable.t) (value : val) : res unit :=
  if negb (Py.eqb (ODVariable.min obj) (VInt 0))
     && negb (Py.eqb (ODVariable.max obj) (VInt 0))
  then
    let! high := Py.gt value (ODVariable.max obj) in
    if (high : bool) then Raise ValueError
    else
      let! low := Py.lt value (ODVariable.min obj) in
      if (low : bool) then Raise ValueError else Ok tt
  else Ok tt.

(** [Node._var_write]: validation only, nothing is stored. The name
    [VISIBLE_STRING] of the third branch is not imported by the module, so
    evaluating that condition raises [NameError]. *)
Definition _var_write (obj : ODVariable.t) (value : val) : res unit :=
  if in_tuple (ODVariable.data_type obj) INTEGER_TYPES then
    if negb (type_is_int value) then Raise TypeError
    else check_limits obj value
  else if in_tuple (ODVariable.data_type obj) FLOAT_TYPES then
    if negb (isinstance_int value) then Raise TypeError
    else check_limits obj value
  else Raise NameError.

(** [Node.od_write] *)
Definition od_write (index : Z) (subindex : option Z) (value : val) : M unit :=
  do! e := (fun self => (od_get_obj index subindex self, self)) in
  do! obj := lift (as_variable e) in
  if in_tuple (ODVariable.data_type obj) INTEGER_TYPES
     && isinstance_int value
  then raise ValueError
  else modify (set_od (fun od => od_assign_value od index subindex value)).

(** The mask loop of [od_write_bitfield]. *)
Fixpoint write_bitfield_mask (bits : list Z) (todo : list Z) (mask : Z)
  : res Z :=
  match todo with
  | [] => Ok mask
  | i :: rest =>
      let! b := Py.index bits i in
      let! m := Py.shl 1 b in
      write_bitfield_mask bits rest (Z.lor mask m)
  end.

(** [Node.od_write_bitfield] *)
Definition od_write_bitfield (index : Z) (subindex : option Z)
    (field : string) (value : Z) : M unit :=
  do! e := (fun self => (od_get_obj index subindex self, self)) in
  do! obj := lift (as_variable e) in
  do! bits := lift (bits_of obj field) in
  do! offset := lift (Py.min_list bits) in
  do! mask := lift (write_bitfield_mask bits bits 0) in
  do! old := lift (match int_of (ODVariable.value obj) with
                   | Some z => Ok z
                   | None => Raise TypeError
                   end) in
  let new_value := Z.lxor old mask in
  do! shifted := lift (Py.shl value offset) in
  let new_value := Z.lor new_value shifted in
  modify (set_od (fun od =>
            od_assign_value od index subindex (VInt new_value))).

(** ** EMCY and PDO engine *)

(** [int.to_bytes(4, "big")] on a stored value: defined on ints in
    [0, 2^32); other values have no such method. *)
Definition to_bytes_4_big (v : val) : res (list Z) :=
  match int_of v with
  | None => Raise AttributeError
  | Some z =>
      if (z <? 0) || (2 ^ 32 <=? z) then Raise OverflowError
      else Ok [Z.land (Z.shiftr z 24) 0xFF; Z.land (Z.shiftr z 16) 0xFF;
               Z.land (Z.shiftr z 8) 0xFF; Z.land z 0xFF]
  end.

(** [struct.unpack(">HBB", b)] on four bytes. *)
Definition unpack_HBB (b : list Z) : Z * Z * Z :=
  match b with
  | [b0; b1; b2; b3] => (b0 * 256 + b1, b2, b3)
  | _ => (0, 0, 0)
  end.

(** What lies outside the repository, around the node:
    - [EmcyCode_value]: the integer of each [EmcyCode] member;
    - [can_bus]: what [psutil.net_if_stats().get(self._channel)] answers
      during the call, [None] or the [isup] flag of the interface;
    - [sdo_phys]: [self._node.sdo[index].phys] and
      [self._node.sdo[index][subindex].phys], the value served by the
      local SDO server (after any read callback);
    - [encode_raw]: [ODVariable.encode_raw]. *)
Record Stack := mkStack {
  EmcyCode_value : EmcyCode -> Z;
  can_bus : option bool;
  sdo_phys : Node -> Z -> option Z -> res val;
  encode_raw : ODVariable.t -> val -> res (list Byte.byte);
}.

Section Engine.

Context (stack : Stack).

(** [self._od[0x1001].value], the error register. *)
Definition error_register (self : Node) : res val :=
  let! e := od_getitem (_od self) 0x1001 in
  let! v := as_variable e in
  Ok (ODVariable.value v).

(** The integer that stands for the [code] argument of [send_emcy]: a
    member of [EmcyCode] is replaced by its value. *)
Definition code_int (code : emcy_arg) : Z :=
  match code with
  | OfEnum c => EmcyCode_value stack c
  | OfInt z => z
  end.

(** [Node.send_emcy]. The call to [self._node.emcy.send] is recorded once
    its arguments are evaluated; whatever it raises is swallowed. *)
Definition send_emcy (code : emcy_arg) (data : list Byte.byte)
    (raise_exception : bool) : M unit :=
  fun self =>
    match _network self with
    | None =>
        if raise_exception then (Raise NetworkError, self) else (Ok tt, self)
    | Some _ =>
        let code := code_int code in
        try_pass
          (do! node := lift (match _node self with
                             | Some n => Ok n
                             | None => Raise AttributeError
                             end) in
           do! register := lift (error_register self) in
           modify (call (EmcySend code register data))) self
    end.

(** The mapping loop of [_send_pdo]: [i] runs over [range(maps)], a zero
    map word ends the loop, every other word adds the encoded entry. *)
Fixpoint pdo_data_loop (self : Node) (map_index : Z) (todo : list Z)
    (data : list Byte.byte) : res (list Byte.byte) :=
  match todo with
  | [] => Ok data
  | i :: rest =>
      let! m := od_getsub (_od self) map_index (i + 1) in
      let pdo_map := ODVariable.value m in
      if Py.eqb pdo_map (VInt 0) then Ok data
      else
        let! pdo_map_bytes := to_bytes_4_big pdo_map in
        let '(index, subindex, _) := unpack_HBB pdo_map_bytes in
        let! e := od_getitem (_od self) index in
        let! value_bytes :=
          (if is_ODVariable e then
             let! value := sdo_phys stack self index None in
             let! v := as_variable e in
             encode_raw stack v value
           else
             let! value := sdo_phys stack self index (Some subindex) in
             let! v := entry_getitem e subindex in
             encode_raw stack v value) in
        pdo_data_loop self map_index rest (data ++ value_bytes)
  end.

(** The test of [_send_pdo] on the link: no interface, no local node, or
    the interface up with the node not operational. *)
Definition link_silent (self : Node) : bool :=
  match can_bus stack, _node self with
  | None, _ => true
  | _, None => true
  | Some isup, Some node =>
      isup && negb (String.eqb (nmt_state node) "OPERATIONAL")
  end.

(** [self.od[comm_index][1].value & 0x3F_FF_FF_FF] *)
Definition pdo_cob_id (self : Node) (comm_index : Z) : res Z :=
  let! c := od_getsub (_od self) comm_index 1 in
  Py.and_ (ODVariable.value c) (VInt 0x3FFFFFFF).

(** [self.od[map_index][0].value], as the argument of [range]. *)
Definition pdo_maps (self : Node) (map_index : Z) : res Z :=
  let! m := od_getsub (_od self) map_index 0 in
  match int_of (ODVariable.value m) with
  | Some k => Ok k
  | None => Raise TypeError
  end.

(** [Node._send_pdo] *)
Definition _send_pdo (comm_index map_index : Z) (raise_exception : bool)
  : M unit :=
  fun self =>
    match _network self with
    | None =>
        if raise_exception then (Raise NetworkError, self) else (Ok tt, self)
    | Some _ =>
        if link_silent self then (Ok tt, self)
        else
          (do! cob_id := lift (pdo_cob_id self comm_index) in
           do! maps := lift (pdo_maps self map_index) in
           do! data := lift (pdo_data_loop self map_index (range maps) []) in
           if 8 <? Z.of_nat (length data)
           then send_emcy (OfEnum PROTOCOL_PDO_LEN_EXCEEDED) [] false
           else modify (call (NetworkSendMessage cob_id data))) self
    end.

(** [Node.send_tpdo] *)
Definition send_tpdo (tpdo : Z) (raise_exception : bool) : M unit :=
  if tpdo <? 1 then raise ValueError
  else
    let tpdo := tpdo - 1 in
    let comm_index := 0x1800 + tpdo in
    let map_index := 0x1A00 + tpdo in
    _send_pdo comm_index map_index raise_exception.

(** [Node.send_rpdo] *)
Definition send_rpdo (rpdo : Z) (raise_exception : bool) : M unit :=
  if rpdo <? 1 then raise ValueError
  else
    let rpdo := rpdo - 1 in
    let comm_index := 0x1400 + rpdo in
    let map_index := 0x1600 + rpdo in
    _send_pdo comm_index map_index raise_exception.

(** The counter after [self._syncs += 1] and the wrap at 241. *)
Definition next_syncs (syncs : Z) : Z :=
  if syncs + 1 =? 241 then 1 else syncs + 1.

(** The body of the loop of [_on_sync] for slot [i]. *)
Definition on_sync_slot (i : Z) : M unit :=
  do! transmission_type :=
    (fun self => (let! v := od_getsub (_od self) (0x1800 + i) 2 in
                  Ok (ODVariable.value v), self)) in
  do! syncs := gets _syncs in
  do! r := lift (Py.mod_ (VInt syncs) transmission_type) in
  if Py.eqb r (VInt 0) then send_tpdo i false else ret tt.

(** [Node._on_sync]; the frame's [cob_id], [data] and [timestamp] are not
    used by the handler. *)
Definition _on_sync (cob_id : Z) (data : list Byte.byte) (timestamp : Q)
  : M unit :=
  modify (fun self => set_syncs (next_syncs (_syncs self)) self) ;;
  for_each (range 16) on_sync_slot.

End Engine.

(** ** Bus supervision and the run loop *)

(** What one pass of the monitor loop sees of the outside world:
    - [bus]: [psutil.net_if_stats().get(self._channel)], [None] or [isup];
    - [path_exists]: [os.path.exists(self._channel)];
    - [root]: [os.geteuid() == 0];
    - [disconnect_raises]: [Network.disconnect] raises;
    - [heartbeat_raises]: [nmt.start_heartbeat] raises;
    - [stack_raises]: an exception of the CANopen stack while the RPDO
      callbacks are installed at the end of [_restart_network]. *)
Record Env := mkEnv {
  bus : option bool;
  path_exists : bool;
  root : bool;
  disconnect_raises : bool;
  heartbeat_raises : bool;
  stack_raises : option exn;
}.

(** A pass of the loop together with the [stop] call, if any, that another
    thread makes while the loop waits on the event. *)
Record Tick := mkTick {
  env : Env;
  stop_call : option (option NodeStop);
}.

(** Truth value of [self._network]: [None] and a network without nodes are
    false. *)
Definition network_truthy (n : option Network) : bool :=
  match n with
  | Some net => negb (Nat.eqb (net_nodes net) 0)
  | None => false
  end.

(** [Node.stop] *)
Definition stop (reset : option NodeStop) : M unit :=
  (match reset with
   | Some r => modify (set_reset r)
   | None => ret tt
   end) ;;
  modify (set_event true).

(** [Node._setup_node] *)
Definition _setup_node : M unit :=
  (do! node_id := gets _od_node_id in
   match node_id with
   | None => modify (set_od_node_id (Some 0x7C))
   | Some _ => ret tt
   end) ;;
  modify (set_node (Some (mkLocalNode "INITIALISING"))).

(** [Node._destroy_node] *)
Definition _destroy_node : M unit :=
  (do! timers := gets _tpdo_timers in
   for_each timers (fun timer => modify (call (TimerStop timer)))) ;;
  modify (set_tpdo_timers []) ;;
  modify (set_node None).

Section Supervisor.

Context (stack : Stack).

(** [Node._restart_bus] (log lines left out) *)
Definition _restart_bus (e : Env) (send_emcy_ : bool) : M unit :=
  if path_exists e then ret tt
  else
    (if root e then modify (call IpLinkReset) else ret tt) ;;
    modify (set_first_bus_reset false) ;;
    if send_emcy_
    then send_emcy stack (OfEnum COMM_RECOVERED_BUS) [] false
    else ret tt.

(** [Node._restart_network] *)
Definition _restart_network (e : Env) : M unit :=
  modify (set_network (Some (mkNetwork 0 true))) ;;
  _setup_node ;;
  modify (set_network (Some (mkNetwork 1 true))) ;;
  try_pass
    (do! interval := (fun self =>
         (let! o := od_getitem (_od self) 0x1017 in
          let! v := as_variable o in
          Ok (ODVariable.default v), self)) in
     if heartbeat_raises e then raise ValueError
     else
       modify (call (StartHeartbeat interval)) ;;
       modify (set_node (Some (mkLocalNode "OPERATIONAL")))) ;;
  modify (call NetworkSubscribeSync) ;;
  match stack_raises e with
  | Some x => raise x
  | None => ret tt
  end.

(** [Node._disable_network] *)
Definition _disable_network (e : Env) : M unit :=
  fun self =>
    match
      ((do! net := gets _network in
        if network_truthy net then
          if disconnect_raises e then raise ValueError
          else
            modify (call NetworkDisconnect) ;;
            modify (set_network
                      (option_map (fun n => mkNetwork (net_nodes n) false) net))
        else ret tt) ;;
       _destroy_node) self
    with
    | (Ok _, self') => (Ok tt, self')
    | (Raise _, self') => (Ok tt, set_node None (set_network None self'))
    end.

(** One pass of the body of the [while] loop of [_monitor_can], up to the
    wait on the event. *)
Definition monitor_body (e : Env) : M unit :=
  do! kind := gets bus_type in
  if String.eqb kind "socketcand" then ret tt
  else
    do! net := gets _network in
    if bool_decide (bus e = None) && negb (path_exists e) then
      modify (set_bus_state BUS_NOT_FOUND) ;;
      _disable_network e
    else if match bus e with Some isup => negb isup | None => false end
            || path_exists e then
      modify (set_bus_state BUS_DOWN) ;;
      _disable_network e ;;
      _restart_bus e true
    else if negb (network_truthy net) then
      modify (set_bus_state BUS_UP_NETWORK_DOWN) ;;
      _restart_network e
    else
      modify (set_bus_state BUS_UP_NETWORK_UP) ;;
      modify (set_first_bus_reset true).

(** [self._event.wait(1)]: the thread sleeps; a [stop] call of another
    thread may land meanwhile. *)
Definition wait (t : Tick) : M unit :=
  match stop_call t with
  | Some reset => stop reset
  | None => ret tt
  end.

(** The [while not self._event.is_set()] loop over a schedule of passes.
    [None]: the schedule ended with the loop still running. *)
Fixpoint monitor_loop (ticks : list Tick) (self : Node)
  : option (res unit * Node) :=
  if _event self then Some (Ok tt, self)
  else
    match ticks with
    | [] => None
    | t :: rest =>
        match (monitor_body (env t) ;; wait t) self with
        | (Ok _, self') => monitor_loop rest self'
        | (Raise x, self') => Some (Raise x, self')
        end
    end.

(** The statements of [_monitor_can] before its loop; [e0] is the outside
    world at that time. *)
Definition monitor_boot (e0 : Env) : M unit :=
  modify (set_first_bus_reset true) ;;
  _restart_bus e0 false ;;
  do! kind := gets bus_type in
  if String.eqb kind "socketcand" then
    _restart_network e0 ;;
    modify (set_bus_state BUS_UP_NETWORK_UP)
  else ret tt.

(** [Node._monitor_can] *)
Definition _monitor_can (e0 : Env) (ticks : list Tick) (self : Node)
  : option (res unit * Node) :=
  match monitor_boot e0 self with
  | (Ok _, self') => monitor_loop ticks self'
  | (Raise x, self') => Some (Raise x, self')
  end.

(** [Node.run]: an exception of [_monitor_can] is logged, then the node is
    destroyed and [self._reset] returned. *)
Definition run (e0 : Env) (ticks : list Tick) (self : Node)
  : option (res NodeStop * Node) :=
  match _monitor_can e0 ticks self with
  | None => None
  | Some (_, self') =>
      Some ((_destroy_node ;; gets _reset) self')
  end.

End Supervisor.

(** A pass during which no [stop] call lands and the CANopen stack raises
    nothing. *)
Definition quiet (t : Tick) : Prop :=
  stop_call t = None /\ stack_raises (env t) = None.

(** A schedule for the samples: the interface is up all along, and
    [stop(reset)] lands during the third wait. *)
Definition sample_env : Env := mkEnv (Some true) false false false false None.

Definition sample_ticks (reset : NodeStop) : list Tick :=
  [mkTick sample_env None; mkTick sample_env None;
   mkTick sample_env (Some (Some reset)); mkTick sample_env None].

(** ** Loading the dictionary: [App.setup] *)

Module App.

(** The attributes of [App] that [setup] fills in: the dictionary of the
    local node and the node id. *)
Record t := mk {
  od : gmap Z ODEntry;
  _node_id : Z;
}.

(** [len(self._node.rpdo)] and [len(self._node.tpdo)]: the CANopen stack
    creates one PDO map for every [map_no] in [range(512)] whose
    communication record [base + map_no] is in the dictionary. *)
Definition pdo_count (od : gmap Z ODEntry) (base : Z) : Z :=
  Z.of_nat (length (filter (fun i => bool_decide (is_Some (od !! (base + i))))
                           (range 512))).

(** [App._load_node]: the node id is the argument unless it is 0, else
    the one of the DCF unless it is missing or 0, else 0x7C. *)
Definition _load_node (node_id : Z) (eds : gmap Z ODEntry)
    (dcf_node_id : option Z) : t :=
  let id :=
    if negb (node_id =? 0) then node_id
    else match dcf_node_id with
         | Some d => if d =? 0 then 0x7C else d
         | None => 0x7C
         end in
  mk eds id.

(** The first loop of [setup]: every variable's value is set to its
    default. *)
Definition set_defaults (od : gmap Z ODEntry) : gmap Z ODEntry :=
  let reset v := ODVariable.set_value (ODVariable.default v) v in
  (fun e => match e with
            | ODVar v => ODVar (reset v)
            | ODCompound subs => ODCompound (reset <$> subs)
            end) <$> od.

(** One of the two COB-ID loops of [setup]; they differ in the index of
    the communication records ([comm]), in the list of defaults and in the
    base of the replacement ([base]). *)
Fixpoint fix_cob_ids (comm base : Z) (defaults : list Z) (node_id : Z)
    (todo : list Z) (od : gmap Z ODEntry) : res (gmap Z ODEntry) :=
  match todo with
  | [] => Ok od
  | i :: rest =>
      let! c := od_getsub od (comm + i) 1 in
      let! low := Py.and_ (ODVariable.default c) (VInt 0xFFF) in
      let cob_id :=
        if in_tuple low defaults
        then VInt (base + 0x100 * (i mod 4) + node_id + i / 4)
        else ODVariable.default c in
      fix_cob_ids comm base defaults node_id rest
        (od_assign_value od (comm + i) (Some 1) cob_id)
  end.

(** [App.setup], from the loaded dictionary on: [eds] is the dictionary
    read from the EDS or DCF file and [dcf_node_id] its node id. *)
Definition setup (eds : gmap Z ODEntry) (dcf_node_id : option Z)
    (node_id : Z) : res t :=
  let self := _load_node node_id eds dcf_node_id in
  let od0 := set_defaults (od self) in
  let id := _node_id self in
  let default_rpdos := [0x200 + id; 0x300 + id; 0x400 + id; 0x500 + id] in
  let default_tpdos := [0x180 + id; 0x280 + id; 0x380 + id; 0x480 + id] in
  let! od1 := fix_cob_ids 0x1400 0x200 default_rpdos id
                (range (pdo_count od0 0x1400)) od0 in
  let! od2 := fix_cob_ids 0x1800 0x180 default_tpdos id
                (range (pdo_count od1 0x1800)) od1 in
  Ok (mk od2 id).

(** The COB-ID of a PDO after loading: [od[comm + n][1].value]. *)
Definition cob_id (app : t) (comm n : Z) : res val :=
  let! c := od_getsub (od app) (comm + n) 1 in Ok (ODVariable.value c).

(** The COB-IDs of the sixteen TPDOs and the sixteen RPDOs after
    loading. *)
Definition pdo_cob_ids (app : t) : list (res val) :=
  map (cob_id app 0x1800) (range 16) ++ map (cob_id app 0x1400) (range 16).

End App.

(** The repair rule in the words of the specification, for the PDO kind
    with communication records from [comm] on (0x1400 for RPDOs, 0x1800 for
    TPDOs). *)
Module Repair.

Definition base (comm : Z) : Z := if comm =? 0x1400 then 0x200 else 0x180.

(** The reserved defaults of a kind: RPDOs 0x200/0x300/0x400/0x500 +
    node id, TPDOs 0x180/0x280/0x380/0x480 + node id. *)
Definition reserved_defaults (comm node_id : Z) : list Z :=
  [base comm + node_id; base comm + 0x100 + node_id;
   base comm + 0x200 + node_id; base comm + 0x300 + node_id].

(** A default matches when its low 12 bits are a reserved default. *)
Definition is_reserved (comm node_id d : Z) : bool :=
  in_tuple (Z.land d 0xFFF) (reserved_defaults comm node_id).

(** The replacement: base + 0x100 (n mod 4) + node id + n / 4. *)
Definition pattern (comm node_id n : Z) : Z :=
  base comm + 0x100 * (n mod 4) + node_id + n / 4.

(** The COB-ID slot [n] ends with, for the configured default [d]. *)
Definition repaired (comm node_id n d : Z) : Z :=
  if is_reserved comm node_id d then pattern comm node_id n else d.

(** The slots: either kind, [n] from 0 to 15. *)
Definition slot (comm n : Z) : Prop :=
  (comm = 0x1400 \/ comm = 0x1800) /\ 0 <= n < 16.

(** The configured default COB-ID of a slot in the dictionary file, as an
    integer (0 where the entry is missing or not an integer). *)
Definition configured (eds : gmap Z ODEntry) (comm n : Z) : Z :=
  match od_getsub eds (comm + n) 1 with
  | Ok c =>
      match int_of (ODVariable.default c) with
      | Some d => d
      | None => 0
      end
  | Raise _ => 0
  end.

(** The COB-ID the rule gives slot [n] of a dictionary file. *)
Definition final (eds : gmap Z ODEntry) (node_id comm n : Z) : Z :=
  repaired comm node_id n (configured eds comm n).

End Repair.

(** ** Sample dictionaries and nodes *)

Module Sample.

(** A variable with no limits, factor 1 and no bit fields. *)
Definition var (name : string) (data_type : Z) (value : val)
  : ODVariable.t :=
  ODVariable.mk name data_type value value (VInt 0) (VInt 0) (VInt 1) ∅.

(** A node around a dictionary: nothing started yet. *)
Definition node (od : gmap Z ODEntry) : Node :=
  mkNode od (Some 0x10) None None 0 SOFT_RESET false BUS_DOWN false []
         "socketcan" [].

(** The same node with the network up and the local node operational. *)
Definition node_up (od : gmap Z ODEntry) : Node :=
  set_node (Some (mkLocalNode "OPERATIONAL"))
    (set_network (Some (mkNetwork 1 true)) (node od)).

(** An UNSIGNED8 counter holding 7. *)
Definition counter : ODVariable.t := var "counter" UNSIGNED8 (VInt 7).

(** A REAL32 temperature holding 5 with limits 1 and 10. *)
Definition temperature : ODVariable.t :=
  ODVariable.mk "temperature" REAL32 (VInt 5) (VInt 5) (VInt 1) (VInt 10)
                (VInt 1) ∅.

(** An INTEGER32 voltage holding 3 with scaling factor 2. *)
Definition voltage : ODVariable.t :=
  ODVariable.mk "voltage" INTEGER32 (VInt 3) (VInt 3) (VInt 0) (VInt 0)
                (VInt 2) ∅.

(** An UNSIGNED8 status word holding 0 with a field on bits 0 and 1 and a
    field on bits 4 and 5. *)
Definition status : ODVariable.t :=
  ODVariable.mk "status" UNSIGNED8 (VInt 0) (VInt 0) (VInt 0) (VInt 0)
                (VInt 1) {[ "mode" := [0; 1]; "level" := [4; 5] ]}.

(** The error register. *)
Definition error_register : ODVariable.t :=
  var "error_register" UNSIGNED8 (VInt 0).

Definition od_vars : gmap Z ODEntry :=
  {[ 0x1001 := ODVar error_register;
     0x2000 := ODVar counter;
     0x2001 := ODVar temperature;
     0x2002 := ODVar voltage;
     0x2003 := ODVar status ]}.

(** Mapped variables: two UNSIGNED32, one UNSIGNED64, one UNSIGNED8. *)
Definition od_mapped : gmap Z ODEntry :=
  {[ 0x2010 := ODVar (var "a" UNSIGNED32 (VInt 0x11223344));
     0x2011 := ODVar (var "b" UNSIGNED32 (VInt 0x55667788));
     0x2012 := ODVar (var "c" UNSIGNED64 (VInt 1));
     0x2013 := ODVar (var "d" UNSIGNED8 (VInt 0xAA)) ]}.

(** The communication record of TPDO slot [i] with transmission type
    [tt i], and the sixteen of them. *)
Definition tpdo_comm (tt : Z -> Z) (i : Z) : ODEntry :=
  ODCompound
    {[ 1 := var "cob_id" UNSIGNED32 (VInt (0x190 + 0x100 * (i mod 4) + i / 4));
       2 := var "transmission_type" UNSIGNED8 (VInt (tt i)) ]}.

Definition tpdo_comms (tt : Z -> Z) : gmap Z ODEntry :=
  list_to_map (map (fun i => (0x1800 + i, tpdo_comm tt i)) (range 16)).

(** A mapping record from its map words. *)
Definition pdo_mapping (words : list Z) : ODEntry :=
  ODCompound
    (<[ 0 := var "count" UNSIGNED8 (VInt (Z.of_nat (length words))) ]>
       (list_to_map
          (imap (fun k w => (Z.of_nat k + 1, var "map" UNSIGNED32 (VInt w)))
                words))).

(** TPDO1 maps [a] and [b] (8 bytes), TPDO2 maps [c] and [d] (9 bytes),
    the other slots map nothing. *)
Definition tpdo_mappings : gmap Z ODEntry :=
  <[ 0x1A00 := pdo_mapping [0x20100020; 0x20110020] ]>
    (<[ 0x1A01 := pdo_mapping [0x20120040; 0x20130008] ]>
       (list_to_map (map (fun i => (0x1A00 + i, pdo_mapping [])) (range 16)))).

(** The whole dictionary, for given transmission types. *)
Definition od_pdo (tt : Z -> Z) : gmap Z ODEntry :=
  od_vars ∪ od_mapped ∪ tpdo_comms tt ∪ tpdo_mappings.

(** Sample values for the two [EmcyCode] members. *)
Definition emcy_value (c : EmcyCode) : Z :=
  match c with
  | PROTOCOL_PDO_LEN_EXCEEDED => 0x8220
  | COMM_RECOVERED_BUS => 0x8140
  end.

(** A local SDO server without read callbacks: it serves the stored
    value. *)
Definition sdo_phys (self : Node) (index : Z) (subindex : option Z)
  : res val :=
  od_read index subindex self.

Fixpoint le_bytes (n : nat) (z : Z) : list Byte.byte :=
  match n with
  | O => []
  | S n' =>
      match Byte.of_N (Z.to_N (z mod 256)) with
      | Some b => b :: le_bytes n' (z / 256)
      | None => []
      end
  end.

(** A raw encoder for the unsigned types: little endian, as wide as the
    type. *)
Definition encode_raw (v : ODVariable.t) (x : val)
  : res (list Byte.byte) :=
  match int_of x with
  | None => Raise TypeError
  | Some z =>
      let dt := ODVariable.data_type v in
      if dt =? UNSIGNED8 then Ok (le_bytes 1 z)
      else if dt =? UNSIGNED16 then Ok (le_bytes 2 z)
      else if dt =? UNSIGNED32 then Ok (le_bytes 4 z)
      else if dt =? UNSIGNED64 then Ok (le_bytes 8 z)
      else Raise TypeError
  end.

(** The surroundings of the sample node: the interface is up. *)
Definition stack : Stack := mkStack emcy_value (Some true) sdo_phys encode_raw.

(** A communication record as the dictionary file gives it: the COB-ID
    has a default and no value yet. *)
Definition comm_record (cob_id : Z) : ODEntry :=
  ODCompound
    {[ 1 := ODVariable.mk "cob_id" UNSIGNED32 VNone (VInt cob_id)
                          (VInt 0) (VInt 0) (VInt 1) ∅;
       2 := var "transmission_type" UNSIGNED8 (VInt 255) ]}.

(** A dictionary file with sixteen RPDOs and sixteen TPDOs whose default
    COB-IDs are given per slot. *)
Definition eds (rpdo tpdo : Z -> Z) : gmap Z ODEntry :=
  list_to_map (map (fun i => (0x1400 + i, comm_record (rpdo i))) (range 16))
  ∪ list_to_map
      (map (fun i => (0x1800 + i, comm_record (tpdo i))) (range 16)).

(** The four defaults repeated over the slots, for node 0x10. *)
Definition rpdo_default (i : Z) : Z := 0x200 + 0x100 * (i mod 4) + 0x10.
Definition tpdo_default (i : Z) : Z := 0x180 + 0x100 * (i mod 4) + 0x10.

(** The same with TPDO6 (slot 5) configured to 0x191. *)
Definition tpdo_default_191 (i : Z) : Z :=
  if i =? 5 then 0x191 else tpdo_default i.

(** The application after loading the first of the two files as node
    0x10. *)
Definition loaded : App.t :=
  match App.setup (eds rpdo_default tpdo_default) None 0x10 with
  | Ok app => app
  | Raise _ => App.mk ∅ 0
  end.

End Sample.

(** ** Outgoing calls *)

(** The node after further outgoing calls, oldest first: nothing but
    [calls] differs. *)
Definition calls_added (cs : list Call) (self : Node) : Node :=
  fold_left (fun s c => call c s) cs self.

(** The calls a PDO send can make: a frame, or an emergency message. *)
Definition pdo_call (c : Call) : bool :=
  match c with
  | NetworkSendMessage _ _ => true
  | EmcySend _ _ _ => true
  | _ => false
  end.

(** ** Further sample data *)

Module Case.

(** A dictionary with one RPDO: its COB-ID 0x210 is stored with the two
    top flag bits set, and its mapping has a zero word in second place,
    before a word that names no entry. *)
Definition od : gmap Z ODEntry :=
  Sample.od_vars ∪ Sample.od_mapped
  ∪ {[ 0x1400 :=
         ODCompound
           {[ 1 := Sample.var "cob_id" UNSIGNED32 (VInt 0xC0000210);
              2 := Sample.var "transmission_type" UNSIGNED8 (VInt 255) ]};
       0x1600 := Sample.pdo_mapping [0x20100020; 0; 0x99990008] ]}.

(** The node on that dictionary, up and operational. *)
Definition node : Node := Sample.node_up od.

(** An INTEGER16 level with limits -5 and 10. *)
Definition level : ODVariable.t :=
  ODVariable.mk "level" INTEGER16 (VInt 0) (VInt 0) (VInt (-5)) (VInt 10)
                (VInt 1) ∅.

(** An UNSIGNED8 flags word holding 0x05 with the field [low] on bits 0, 1
    and 2. *)
Definition flags : ODVariable.t :=
  ODVariable.mk "flags" UNSIGNED8 (VInt 0x05) (VInt 0) (VInt 0) (VInt 0)
                (VInt 1) {[ "low" := range 3 ]}.

Definition od_flags : gmap Z ODEntry := {[ 0x2100 := ODVar flags ]}.

(** A node on a socketcand bus, nothing started yet. *)
Definition tcp_node : Node :=
  mkNode Sample.od_vars (Some 0x10) None None 0 SOFT_RESET false BUS_DOWN
         false [] "socketcand" [].

(** The outside world with the interface missing, and with the interface
    up while the CANopen stack raises on a restart of the network. *)
Definition env_missing : Env := mkEnv None false false false false None.
Definition env_raising : Env :=
  mkEnv (Some true) false false false false (Some OverflowError).

End Case.

(** ** The timer loop of [Node] *)

(** [a // b] on values: floor division, on ints as [Z.div]; a zero divisor
    raises. *)
Definition floordiv (a b : val) : res val :=
  match int_of a, int_of b with
  | Some x, Some y =>
      if y =? 0 then Raise ZeroDivisionError else Ok (VInt (x / y))
  | _, _ =>
      match num_of a, num_of b with
      | Some x, Some y =>
          if Qeq_bool y (inject_Z 0) then Raise ZeroDivisionError
          else Ok (VFloat (inject_Z (Qfloor (Qdiv x y))))
      | _, _ => Raise TypeError
      end
  end.

(** [x in [c0, c1, ...]] for a value and a list of int literals. *)
Definition in_ints (x : val) (l : list Z) : bool :=
  existsb (fun c => Py.eqb x (VInt c)) l.

(** The [for] loop of [_send_timer_tpdos]: every round binds [i] and reads
    the transmission type and the event time of the record 0x1800. [bound]
    holds the three local variables once they are bound. *)
Fixpoint timer_scan (self : Node) (todo : list Z)
    (bound : option (Z * val * val)) : res (option (Z * val * val)) :=
  match todo with
  | [] => Ok bound
  | i :: rest =>
      let! t := od_getsub (_od self) 0x1800 2 in
      let ttype := ODVariable.value t in
      let! e := od_getsub (_od self) 0x1800 5 in
      let event_time := ODVariable.value e in
      timer_scan self rest (Some (i, ttype, event_time))
  end.

Section Timers.

Context (stack : Stack).

(** One pass of the [while] loop of [Node._send_timer_tpdos], up to the
    wait on the event. [num_of_TPDO] is what reading [self.od.num_of_TPDO]
    gives. [loop] is set to 0 at the start of every pass; a local variable
    that the [for] loop never bound raises [UnboundLocalError], a
    [NameError]; the timeout of the wait is
    [delay_s - ((monotonic() - start_time) % delay_s)] with
    [delay_s = delay / 1000], a float modulo that raises when [delay] is 0. *)
Definition timer_pass (num_of_TPDO : res Z) (delay : Z) : M unit :=
  let loop := 0 in
  do! n := lift num_of_TPDO in
  do! bound := (fun self => (timer_scan self (range n) None, self)) in
  match bound with
  | None => raise NameError
  | Some (i, ttype, event_time) =>
      (if Py.eqb event_time (VInt 0) && in_ints ttype [0xFE; 0xFF] then
         do! q := lift (floordiv event_time (VInt delay)) in
         do! r := lift (Py.mod_ q (VInt loop)) in
         if Py.eqb r (VInt 0) then send_tpdo stack (i + 1) false else ret tt
       else ret tt) ;;
      if delay =? 0 then raise ZeroDivisionError else ret tt
  end.

(** [Node._send_timer_tpdos] over a schedule of waits: each entry is the
    [stop] call, if any, that another thread makes during that wait.
    [None]: the schedule ended with the loop still running. *)
Fixpoint _send_timer_tpdos (num_of_TPDO : res Z) (delay : Z)
    (stops : list (option (option NodeStop))) (self : Node)
  : option (res unit * Node) :=
  if _event self then Some (Ok tt, self)
  else
    match stops with
    | [] => None
    | s :: rest =>
        match (timer_pass num_of_TPDO delay ;;
               match s with Some reset => stop reset | None => ret tt end) self
        with
        | (Ok _, self') => _send_timer_tpdos num_of_TPDO delay rest self'
        | (Raise x, self') => Some (Raise x, self')
        end
    end.

End Timers.

(** ** Sending a TPDO from [App] *)

Module AppPdo.

Section AppPdo.

Context (stack : Stack).

(** [App.od]: the dictionary of the local node; without a local node the
    attribute read fails. *)
Definition od (self : Node) : res (gmap Z ODEntry) :=
  match _node self with
  | Some _ => Ok (_od self)
  | None => Raise AttributeError
  end.

(** [self._network.send_message(cob_id, data)] inside its [try]: without a
    network the attribute read raises, and the stack refuses a COB-ID that
    is no int; either way the exception is logged and dropped. *)
Definition send_message (cob_id : val) (data : list Byte.byte) : M unit :=
  try_pass
    (do! net := gets _network in
     match net, int_of cob_id with
     | Some _, Some id => modify (call (NetworkSendMessage id data))
     | None, _ => raise AttributeError
     | _, None => raise TypeError
     end).

(** [App.send_tpdo]. The attributes it touches ([_network], [_node] with
    its dictionary, NMT state and SDO server) are carried by the record of
    [Node]; the result is [None] or [True]. *)
Definition send_tpdo (tpdo : Z) : M val :=
  fun self =>
    match can_bus stack with
    | None => (Ok VNone, self)
    | Some isup =>
        (do! silent :=
           lift (if isup then
                   match _node self with
                   | Some node =>
                       Ok (negb (String.eqb (nmt_state node) "OPERATIONAL"))
                   | None => Raise AttributeError
                   end
                 else Ok false) in
         if (silent : bool) then ret VNone
         else
           do! d := lift (od self) in
           do! c := lift (od_getsub d (0x1800 + tpdo) 1) in
           let cob_id := ODVariable.value c in
           do! maps := lift (pdo_maps self (0x1A00 + tpdo)) in
           do! data := lift (pdo_data_loop stack self (0x1A00 + tpdo)
                               (range maps) []) in
           send_message cob_id data ;;
           ret (VBool true)) self
    end.

End AppPdo.

End AppPdo.

(** ** Enumerations of the dictionary *)

Section Enums.

(** [obj.value_descriptions]: the descriptions of the values of a variable,
    a dict from int to str. *)
Context (value_descriptions : ODVariable.t -> gmap Z string).

(** The target [v, d] of the comprehension of [od_write_enum] takes an
    item of the iteration apart; iterating over a dict gives its keys, and
    an int cannot be unpacked. *)
Definition unpack_key (k : Z) : res (Z * string) := Raise TypeError.

(** [{d: v for v, d in obj.value_descriptions}] *)
Fixpoint swap_descriptions (keys : list Z) (tmp : gmap string Z)
  : res (gmap string Z) :=
  match keys with
  | [] => Ok tmp
  | k :: rest =>
      let! item := unpack_key k in
      let '(v, d) := item in
      swap_descriptions rest (<[ d := v ]> tmp)
  end.

(** [Node.od_write_enum] *)
Definition od_write_enum (index : Z) (subindex : option Z) (value : string)
  : M unit :=
  do! obj := (fun self => (od_get_obj index subindex self, self)) in
  do! v := lift (as_variable obj) in
  do! tmp := lift (swap_descriptions
                     (map fst (map_to_list (value_descriptions v))) ∅) in
  match tmp !! value with
  | Some x =>
      modify (set_od (fun od => od_assign_value od index subindex (VInt x)))
  | None => raise KeyError
  end.

End Enums.

(** ** A timer-driven sample *)

Module Timed.

(** A dictionary whose first TPDO is timer driven: transmission type 0xFE
    with the given event time, mapping [a] and [b]. *)
Definition od (event_time : Z) : gmap Z ODEntry :=
  Sample.od_vars ∪ Sample.od_mapped
  ∪ {[ 0x1800 :=
         ODCompound
           {[ 1 := Sample.var "cob_id" UNSIGNED32 (VInt 0x190);
              2 := Sample.var "transmission_type" UNSIGNED8 (VInt 0xFE);
              5 := Sample.var "event_timer" UNSIGNED16 (VInt event_time) ]};
       0x1A00 := Sample.pdo_mapping [0x20100020; 0x20110020] ]}.

(** The node on that dictionary, up and operational. *)
Definition node (event_time : Z) : Node := Sample.node_up (od event_time).

(** A variable whose values 0 and 1 are described as off and on. *)
Definition value_descriptions (v : ODVariable.t) : gmap Z string :=
  if String.eqb (ODVariable.name v) "counter"
  then {[ 0 := "off"; 1 := "on" ]}
  else ∅.

End Timed.

(** * Properties *)

(** ** Lookups *)

Lemma od_getitem_Ok (od : gmap Z ODEntry) index e :
  od_getitem od index = Ok e <-> od !! index = Some e.
Proof.
  unfold od_getitem. destruct (od !! index); split; congruence.
Qed.

Lemma od_getsub_Ok (od : gmap Z ODEntry) index j v :
  od_getsub od index j = Ok v <->
  exists subs, od !! index = Some (ODCompound subs) /\ subs !! j = Some v.
Proof.
  unfold od_getsub, od_getitem, entry_getitem. split.
  - destruct (od !! index) as [[w|subs]|]; simpl; try discriminate.
    destruct (subs !! j) eqn:E; try discriminate.
    intros [= ->]. eauto.
  - intros (subs & -> & Hj). simpl. now rewrite Hj.
Qed.

Lemma od_get_obj_Ok self index subindex obj :
  od_get_obj index subindex self = Ok (ODVar obj) <->
  match subindex with
  | None => _od self !! index = Some (ODVar obj)
  | Some j => od_getsub (_od self) index j = Ok obj
  end.
Proof.
  unfold od_get_obj. destruct subindex as [j|].
  - destruct (od_getsub (_od self) index j); simpl; split; congruence.
  - apply od_getitem_Ok.
Qed.

(** After [obj.value = x] the same lookup finds the object with the new
    value. *)
Lemma od_get_obj_assign self index subindex obj x :
  od_get_obj index subindex self = Ok (ODVar obj) ->
  od_get_obj index subindex
    (set_od (fun od => od_assign_value od index subindex x) self)
  = Ok (ODVar (ODVariable.set_value x obj)).
Proof.
  intros H. apply od_get_obj_Ok in H. apply od_get_obj_Ok.
  destruct self as [od ? ? ? ? ? ? ? ? ? ? ?]. simpl in *.
  destruct subindex as [j|]; simpl.
  - apply od_getsub_Ok in H as (subs & Hi & Hj). apply od_getsub_Ok.
    exists (alter (ODVariable.set_value x) j subs). split.
    + rewrite lookup_alter_eq, Hi. reflexivity.
    + rewrite lookup_alter_eq, Hj. reflexivity.
  - rewrite lookup_alter_eq, H. reflexivity.
Qed.

(** The condition of [od_read] never holds: a data type code is an int and
    the list it is looked up in holds two tuples. *)
Lemma od_read_condition_false dt :
  py_in (CInt dt) [CTuple INTEGER_TYPES; CTuple FLOAT_TYPES] = false.
Proof. reflexivity. Qed.

Lemma od_read_stored self index subindex obj :
  od_get_obj index subindex self = Ok (ODVar obj) ->
  od_read index subindex self = Ok (ODVariable.value obj).
Proof.
  intros H. unfold od_read. rewrite H. reflexivity.
Qed.

(** ** Writing and reading values *)

(** C1. On a variable of an integer type [od_write] raises [ValueError] for
    every int and leaves the dictionary as it was, while a value of another
    type (here a string) is stored and read back. The specification asks
    for the opposite: ints accepted, other types rejected. *)
Theorem od_write_integer_type_inverted self index subindex obj :
  od_get_obj index subindex self = Ok (ODVar obj) ->
  in_tuple (ODVariable.data_type obj) INTEGER_TYPES = true ->
  (forall z, od_write index subindex (VInt z) self = (Raise ValueError, self))
  /\ (forall s,
        fst (od_write index subindex (VStr s) self) = Ok tt
        /\ od_read index subindex (snd (od_write index subindex (VStr s) self))
           = Ok (VStr s)).
Proof.
  intros Hobj Hint. split.
  - intros z. unfold od_write, bind, lift, raise.
    rewrite Hobj. simpl. now rewrite Hint.
  - intros s. unfold od_write, bind, lift, modify.
    rewrite Hobj. simpl. rewrite Hint. simpl. split; [reflexivity|].
    erewrite od_read_stored by (apply od_get_obj_assign; eassumption).
    reflexivity.
Qed.

Lemma od_write_integer_type_inverted_witness :
  od_write 0x2000 None (VInt 5) (Sample.node Sample.od_vars)
  = (Raise ValueError, Sample.node Sample.od_vars)
  /\ od_read 0x2000 None (Sample.node Sample.od_vars) = Ok (VInt 7)
  /\ od_read 0x2000 None
       (snd (od_write 0x2000 None (VStr "seven") (Sample.node Sample.od_vars)))
     = Ok (VStr "seven").
Proof.
  destruct (od_write_integer_type_inverted (Sample.node Sample.od_vars)
              0x2000 None Sample.counter) as [Hint Hstr];
    [reflexivity | reflexivity |].
  split; [apply Hint|]. split; [reflexivity|]. apply (Hstr "seven").
Defined.

(** C5. [od_write] never looks at the limits: on a variable whose type is
    not an integer type every value is stored, whatever [min] and [max]
    are. *)
Theorem od_write_ignores_limits self index subindex obj value :
  od_get_obj index subindex self = Ok (ODVar obj) ->
  in_tuple (ODVariable.data_type obj) INTEGER_TYPES = false ->
  fst (od_write index subindex value self) = Ok tt
  /\ od_read index subindex (snd (od_write index subindex value self))
     = Ok value.
Proof.
  intros Hobj Hint. unfold od_write, bind, lift, modify.
  rewrite Hobj. simpl. rewrite Hint. simpl. split; [reflexivity|].
  erewrite od_read_stored by (apply od_get_obj_assign; eassumption).
  reflexivity.
Qed.

Lemma od_write_ignores_limits_witness :
  ODVariable.min Sample.temperature = VInt 1
  /\ ODVariable.max Sample.temperature = VInt 10
  /\ fst (od_write 0x2001 None (VInt 100) (Sample.node Sample.od_vars)) = Ok tt
  /\ od_read 0x2001 None
       (snd (od_write 0x2001 None (VInt 100) (Sample.node Sample.od_vars)))
     = Ok (VInt 100).
Proof.
  split; [reflexivity|]. split; [reflexivity|].
  apply (od_write_ignores_limits (Sample.node Sample.od_vars) 0x2001 None
           Sample.temperature (VInt 100)); reflexivity.
Defined.

(** C6. [od_read] returns the stored value whatever the scaling factor is:
    the multiplication by [factor] is never reached. *)
Theorem od_read_ignores_factor self index subindex obj :
  od_get_obj index subindex self = Ok (ODVar obj) ->
  od_read index subindex self = Ok (ODVariable.value obj).
Proof. apply od_read_stored. Qed.

Lemma od_read_ignores_factor_witness :
  ODVariable.factor Sample.voltage = VInt 2
  /\ od_read 0x2002 None (Sample.node Sample.od_vars) = Ok (VInt 3).
Proof.
  split; [reflexivity|].
  apply (od_read_ignores_factor (Sample.node Sample.od_vars) 0x2002 None
           Sample.voltage).
  reflexivity.
Defined.

(** C7. Writing 0 to the field on bits 0 and 1 of a word holding 0 stores 3
    (the mask is combined by exclusive or, so the clear bits are set), and
    reading the field back gives 1 where the specification gives 0;
    writing 2 reads back as 1 too. A field that does not start at bit 0
    cannot be read or written at all: the loops index the list of positions
    with a position. *)
Theorem bitfield_write_read_mismatch :
  let self := Sample.node Sample.od_vars in
  let wrote0 := od_write_bitfield 0x2003 None "mode" 0 self in
  let wrote2 := od_write_bitfield 0x2003 None "mode" 2 self in
  fst wrote0 = Ok tt
  /\ od_read 0x2003 None (snd wrote0) = Ok (VInt 3)
  /\ od_read_bitfield 0x2003 None "mode" (snd wrote0) = Ok 1
  /\ od_read_bitfield 0x2003 None "mode" (snd wrote2) = Ok 1
  /\ od_read_bitfield 0x2003 None "level" self = Raise IndexError
  /\ od_write_bitfield 0x2003 None "level" 1 self = (Raise IndexError, self).
Proof. vm_compute. repeat split; reflexivity. Qed.

(** ** EMCY and PDO engine *)

Section EngineProperties.

Context (stack : Stack).

(** With the network and the local node present and the error register in
    the dictionary, [send_emcy] hands the code to the EMCY producer. *)
Lemma send_emcy_sends self code data raise_exception net node register :
  _network self = Some net ->
  _node self = Some node ->
  error_register self = Ok register ->
  send_emcy stack code data raise_exception self
  = (Ok tt, call (EmcySend (code_int stack code) register data) self).
Proof.
  intros Hnet Hnode Hreg.
  unfold send_emcy, try_pass, bind, lift, modify.
  rewrite Hnet, Hnode, Hreg. reflexivity.
Qed.

(** [send_emcy] raises nothing but [NetworkError]. *)
Lemma send_emcy_raises self code data raise_exception e :
  fst (send_emcy stack code data raise_exception self) = Raise e ->
  e = NetworkError.
Proof.
  unfold send_emcy, try_pass.
  destruct (_network self); [| destruct raise_exception; simpl; congruence].
  match goal with |- context [match ?m self with _ => _ end] =>
    destruct (m self) as [[?|?] ?] end; simpl; discriminate.
Qed.

(** C10. Whatever integer the code is, also above 0xFFFF, [send_emcy]
    with the network up passes it unchanged (a member of [EmcyCode] as its
    integer) to the EMCY producer with the error register and the data,
    and no call of [send_emcy] raises [ValueError]. *)
Theorem send_emcy_forwards_code self code data raise_exception net node
    register :
  _network self = Some net ->
  _node self = Some node ->
  error_register self = Ok register ->
  send_emcy stack code data raise_exception self
  = (Ok tt, call (EmcySend (code_int stack code) register data) self)
  /\ (forall z, code_int stack (OfInt z) = z)
  /\ (forall c, code_int stack (OfEnum c) = EmcyCode_value stack c)
  /\ (forall self' data' r',
        fst (send_emcy stack code data' r' self') <> Raise ValueError).
Proof.
  intros Hnet Hnode Hreg. split; [|split; [|split]].
  - now apply send_emcy_sends with (net := net) (node := node).
  - reflexivity.
  - reflexivity.
  - intros self' data' r' H. apply send_emcy_raises in H. discriminate.
Qed.

Lemma link_silent_node self :
  link_silent stack self = false -> exists node, _node self = Some node.
Proof.
  unfold link_silent.
  destruct (can_bus stack); [|discriminate].
  destruct (_node self); [eauto | discriminate].
Qed.

(** The length test of [_send_pdo], for a send that reaches it with [data]
    concatenated from the mapped entries. *)
Lemma send_pdo_length_test self comm_index map_index raise_exception
    net cob_id maps data register :
  _network self = Some net ->
  link_silent stack self = false ->
  pdo_cob_id self comm_index = Ok cob_id ->
  pdo_maps self map_index = Ok maps ->
  pdo_data_loop stack self map_index (range maps) [] = Ok data ->
  error_register self = Ok register ->
  ((8 < length data)%nat ->
     _send_pdo stack comm_index map_index raise_exception self
     = (Ok tt,
        call (EmcySend (EmcyCode_value stack PROTOCOL_PDO_LEN_EXCEEDED)
                       register []) self))
  /\ (length data = 8%nat ->
        _send_pdo stack comm_index map_index raise_exception self
        = (Ok tt, call (NetworkSendMessage cob_id data) self)).
Proof.
  intros Hnet Hlink Hcob Hmaps Hdata Hreg.
  destruct (link_silent_node self Hlink) as [node Hnode].
  assert (Hstep : _send_pdo stack comm_index map_index raise_exception self
    = (if 8 <? Z.of_nat (length data)
       then send_emcy stack (OfEnum PROTOCOL_PDO_LEN_EXCEEDED) [] false
       else modify (call (NetworkSendMessage cob_id data))) self).
  { unfold _send_pdo. rewrite Hnet.
    rewrite Hlink.
    unfold bind, lift. rewrite Hcob, Hmaps, Hdata. reflexivity. }
  rewrite Hstep. split; intros Hlen.
  - replace (8 <? Z.of_nat (length data)) with true
      by (symmetry; apply Z.ltb_lt; lia).
    now apply send_emcy_sends with (net := net) (node := node).
  - rewrite Hlen. reflexivity.
Qed.

(** [send_tpdo] for a number from 1 on is [_send_pdo] on the rows
    [0x1800 + n - 1] and [0x1A00 + n - 1]; below 1 it raises
    [ValueError]. *)
Lemma send_tpdo_rows n raise_exception self :
  1 <= n ->
  send_tpdo stack n raise_exception self
  = _send_pdo stack (0x1800 + (n - 1)) (0x1A00 + (n - 1)) raise_exception self.
Proof.
  intros Hn. unfold send_tpdo.
  replace (n <? 1) with false by (symmetry; apply Z.ltb_ge; lia).
  reflexivity.
Qed.

Lemma send_tpdo_below_one n raise_exception self :
  n < 1 ->
  send_tpdo stack n raise_exception self = (Raise ValueError, self).
Proof.
  intros Hn. unfold send_tpdo.
  replace (n <? 1) with true by (symmetry; apply Z.ltb_lt; lia).
  reflexivity.
Qed.

(** C8. When the send of TPDO [n] reaches the length test with [data]
    concatenated from the mapped entries: more than 8 bytes cause the EMCY
    [PROTOCOL_PDO_LEN_EXCEEDED] and no frame, exactly 8 bytes are
    transmitted on the COB-ID of the TPDO. *)
Theorem send_tpdo_length_check self n raise_exception net cob_id maps data
    register :
  1 <= n ->
  _network self = Some net ->
  link_silent stack self = false ->
  pdo_cob_id self (0x1800 + (n - 1)) = Ok cob_id ->
  pdo_maps self (0x1A00 + (n - 1)) = Ok maps ->
  pdo_data_loop stack self (0x1A00 + (n - 1)) (range maps) [] = Ok data ->
  error_register self = Ok register ->
  ((8 < length data)%nat ->
     send_tpdo stack n raise_exception self
     = (Ok tt,
        call (EmcySend (EmcyCode_value stack PROTOCOL_PDO_LEN_EXCEEDED)
                       register []) self))
  /\ (length data = 8%nat ->
        send_tpdo stack n raise_exception self
        = (Ok tt, call (NetworkSendMessage cob_id data) self)).
Proof.
  intros Hn Hnet Hlink Hcob Hmaps Hdata Hreg.
  rewrite send_tpdo_rows by exact Hn.
  now apply send_pdo_length_test with (net := net) (maps := maps).
Qed.

(** C3. [send_tpdo(17)] is not refused: it goes on to [_send_pdo] with the
    rows 0x1810 and 0x1A10 like any number from 1 on, and with the network
    down it ends as every accepted call does, silently or with
    [NetworkError], never with [ValueError]. *)
Theorem send_tpdo_17_not_refused self raise_exception :
  _network self = None ->
  send_tpdo stack 17 raise_exception self
  = _send_pdo stack 0x1810 0x1A10 raise_exception self
  /\ send_tpdo stack 17 raise_exception self
     = (if raise_exception then Raise NetworkError else Ok tt, self)
  /\ fst (send_tpdo stack 17 raise_exception self) <> Raise ValueError.
Proof.
  intros Hnet.
  assert (H17 :
    send_tpdo stack 17 raise_exception self
    = (if raise_exception then Raise NetworkError else Ok tt, self)).
  { rewrite send_tpdo_rows by lia.
    unfold _send_pdo. rewrite Hnet.
    now destruct raise_exception. }
  split; [now rewrite send_tpdo_rows by lia|].
  split; [exact H17|].
  rewrite H17. destruct raise_exception; simpl; discriminate.
Qed.

Lemma bind_raises {A B} (m : M A) (k : A -> M B) self e :
  fst (m self) = Raise e -> fst (bind m k self) = Raise e.
Proof.
  unfold bind. destruct (m self) as [[a|e'] s']; simpl; congruence.
Qed.

Lemma eqb_ints a b : Py.eqb (VInt a) (VInt b) = (a =? b).
Proof.
  unfold Py.eqb, Qeq_bool. simpl. now rewrite !Z.mul_1_r.
Qed.

(** The loop body on a slot whose transmission type is the int [ttype]. *)
Lemma on_sync_slot_step i self v ttype :
  od_getsub (_od self) (0x1800 + i) 2 = Ok v ->
  ODVariable.value v = VInt ttype ->
  on_sync_slot stack i self
  = if ttype =? 0 then (Raise ZeroDivisionError, self)
    else if _syncs self mod ttype =? 0 then send_tpdo stack i false self
    else (Ok tt, self).
Proof.
  intros Hv Httype. unfold on_sync_slot, bind, gets, lift, ret.
  rewrite Hv. cbn [rbind]. rewrite Httype. unfold Py.mod_. cbn [int_of].
  destruct (ttype =? 0); [reflexivity|]. rewrite eqb_ints.
  now destruct (_syncs self mod ttype =? 0).
Qed.

(** The counter stays in 1..240 and goes from 240 to 1. *)
Lemma next_syncs_cycles syncs :
  0 <= syncs <= 240 ->
  1 <= next_syncs syncs <= 240
  /\ (syncs < 240 -> next_syncs syncs = syncs + 1)
  /\ (syncs = 240 -> next_syncs syncs = 1).
Proof.
  intros H. unfold next_syncs.
  destruct (Z.eqb_spec (syncs + 1) 241); lia.
Qed.

(** C2. The handler fails on slot 0: with transmission type 0 the modulo
    raises [ZeroDivisionError], and with a transmission type that divides
    the counter it calls [send_tpdo(0)], which raises [ValueError] (the
    slot number is passed where the TPDO number, one more, is due). *)
Theorem on_sync_fails_on_slot_0 cob_id data timestamp self v ttype :
  od_getsub (_od self) 0x1800 2 = Ok v ->
  ODVariable.value v = VInt ttype ->
  (ttype = 0 ->
     fst (_on_sync stack cob_id data timestamp self) = Raise ZeroDivisionError)
  /\ (ttype <> 0 -> next_syncs (_syncs self) mod ttype = 0 ->
        fst (_on_sync stack cob_id data timestamp self) = Raise ValueError).
Proof.
  intros Hv Httype.
  pose proof (on_sync_slot_step 0
                (set_syncs (next_syncs (_syncs self)) self) v ttype) as Hslot.
  change (_od (set_syncs (next_syncs (_syncs self)) self))
    with (_od self) in Hslot.
  change (_syncs (set_syncs (next_syncs (_syncs self)) self))
    with (next_syncs (_syncs self)) in Hslot.
  specialize (Hslot Hv Httype).
  assert (Hrun : forall e,
    fst (on_sync_slot stack 0 (set_syncs (next_syncs (_syncs self)) self))
      = Raise e ->
    fst (_on_sync stack cob_id data timestamp self) = Raise e).
  { intros e He. unfold _on_sync.
    change (range 16) with (0 :: map Z.of_nat (seq 1 15)).
    cbn [for_each]. unfold bind at 1. unfold modify at 1.
    now apply bind_raises. }
  split.
  - intros ->. apply Hrun. rewrite Hslot. reflexivity.
  - intros Hne Hmod. apply Hrun. rewrite Hslot.
    replace (ttype =? 0) with false by (symmetry; apply Z.eqb_neq; lia).
    rewrite Hmod. reflexivity.
Qed.

End EngineProperties.

(** The engine on the sample dictionary. *)

Lemma send_emcy_forwards_code_witness :
  send_emcy Sample.stack (OfInt 0x12345) [] true
    (Sample.node_up Sample.od_vars)
  = (Ok tt,
     call (EmcySend 0x12345 (VInt 0) []) (Sample.node_up Sample.od_vars)).
Proof.
  apply (send_emcy_forwards_code Sample.stack
           (Sample.node_up Sample.od_vars) (OfInt 0x12345) [] true
           (mkNetwork 1 true) (mkLocalNode "OPERATIONAL") (VInt 0));
    reflexivity.
Defined.

Lemma send_tpdo_length_check_witness :
  let self := Sample.node_up (Sample.od_pdo (fun _ => 255)) in
  send_tpdo Sample.stack 2 true self
  = (Ok tt, call (EmcySend 0x8220 (VInt 0) []) self)
  /\ send_tpdo Sample.stack 1 true self
     = (Ok tt,
        call (NetworkSendMessage 0x190
                [Byte.x44; Byte.x33; Byte.x22; Byte.x11;
                 Byte.x88; Byte.x77; Byte.x66; Byte.x55]) self).
Proof.
  split.
  - apply (send_tpdo_length_check Sample.stack
             (Sample.node_up (Sample.od_pdo (fun _ => 255)))
             2 true (mkNetwork 1 true) 0x290 2
             [Byte.x01; Byte.x00; Byte.x00; Byte.x00; Byte.x00; Byte.x00;
              Byte.x00; Byte.x00; Byte.xaa] (VInt 0));
      try reflexivity; simpl; lia.
  - apply (send_tpdo_length_check Sample.stack
             (Sample.node_up (Sample.od_pdo (fun _ => 255)))
             1 true (mkNetwork 1 true) 0x190 2
             [Byte.x44; Byte.x33; Byte.x22; Byte.x11;
              Byte.x88; Byte.x77; Byte.x66; Byte.x55] (VInt 0));
      try reflexivity; lia.
Defined.

Lemma send_tpdo_17_not_refused_witness :
  send_tpdo Sample.stack
    17 false (Sample.node (Sample.od_pdo (fun _ => 255)))
  = (Ok tt, Sample.node (Sample.od_pdo (fun _ => 255))).
Proof.
  apply (send_tpdo_17_not_refused Sample.stack
           (Sample.node (Sample.od_pdo (fun _ => 255))) false).
  reflexivity.
Defined.

Lemma on_sync_fails_on_slot_0_witness :
  let sync := _on_sync Sample.stack 0x80 [] (0 # 1) in
  fst (sync (Sample.node_up (Sample.od_pdo (fun _ => 0))))
  = Raise ZeroDivisionError
  /\ fst (sync (Sample.node_up (Sample.od_pdo (fun _ => 1))))
     = Raise ValueError.
Proof.
  split.
  - apply (on_sync_fails_on_slot_0 Sample.stack 0x80 [] (0 # 1)
             (Sample.node_up (Sample.od_pdo (fun _ => 0)))
             (Sample.var "transmission_type" UNSIGNED8 (VInt 0)) 0);
      reflexivity.
  - apply (on_sync_fails_on_slot_0 Sample.stack 0x80 [] (0 # 1)
             (Sample.node_up (Sample.od_pdo (fun _ => 1)))
             (Sample.var "transmission_type" UNSIGNED8 (VInt 1)) 1);
      try reflexivity.
    discriminate.
Defined.

(** On the sample node the handler, for slot 1 with transmission type 1,
    sends the frame of TPDO1 (COB-ID 0x190), the first slot's, and not the
    one of slot 1 (COB-ID 0x290). *)
Example on_sync_sends_the_slot_before :
  let self :=
    Sample.node_up (Sample.od_pdo (fun i => if i =? 1 then 1 else 255)) in
  _on_sync Sample.stack
    0x80 [] (0 # 1) self
  = (Ok tt,
     call (NetworkSendMessage 0x190
             [Byte.x44; Byte.x33; Byte.x22; Byte.x11;
              Byte.x88; Byte.x77; Byte.x66; Byte.x55])
          (set_syncs 1 self)).
Proof. vm_compute. reflexivity. Qed.

(** ** Bus supervision and the run loop *)

Lemma keeps_ret {A} (a : A) : keeps_stop (ret a).
Proof. intros s. split; reflexivity. Qed.

Lemma keeps_raise {A} e : keeps_stop (@raise A e).
Proof. intros s. split; reflexivity. Qed.

Lemma keeps_lift {A} (r : res A) : keeps_stop (lift r).
Proof. intros s. split; reflexivity. Qed.

Lemma keeps_gets {A} (f : Node -> A) : keeps_stop (gets f).
Proof. intros s. split; reflexivity. Qed.

Lemma keeps_modify (f : Node -> Node) :
  (forall s, _event (f s) = _event s /\ _reset (f s) = _reset s) ->
  keeps_stop (modify f).
Proof. intros H s. apply H. Qed.

Lemma keeps_bind {A B} (m : M A) (k : A -> M B) :
  keeps_stop m -> (forall a, keeps_stop (k a)) -> keeps_stop (bind m k).
Proof.
  intros Hm Hk s. unfold bind. specialize (Hm s).
  destruct (m s) as [[a|e] s1]; simpl in *; [|exact Hm].
  destruct (Hk a s1) as [H1 H2]. destruct Hm as [H3 H4].
  split; congruence.
Qed.

Lemma keeps_try_pass (m : M unit) : keeps_stop m -> keeps_stop (try_pass m).
Proof.
  intros Hm s. unfold try_pass. specialize (Hm s).
  destruct (m s) as [[a|e] s1]; exact Hm.
Qed.

Lemma keeps_for_each {A} (l : list A) (body : A -> M unit) :
  (forall x, keeps_stop (body x)) -> keeps_stop (for_each l body).
Proof.
  intros Hb. induction l as [|x l IH]; simpl.
  - apply keeps_ret.
  - apply keeps_bind; auto.
Qed.

Lemma total_ret {A} (a : A) : total (ret a).
Proof. intros s. eexists. reflexivity. Qed.

Lemma total_gets {A} (f : Node -> A) : total (gets f).
Proof. intros s. eexists. reflexivity. Qed.

Lemma total_modify (f : Node -> Node) : total (modify f).
Proof. intros s. eexists. reflexivity. Qed.

Lemma total_bind {A B} (m : M A) (k : A -> M B) :
  total m -> (forall a, total (k a)) -> total (bind m k).
Proof.
  intros Hm Hk s. unfold bind. destruct (Hm s) as [a Ha].
  destruct (m s) as [[a'|e] s1]; simpl in *; [|discriminate].
  apply Hk.
Qed.

Lemma total_try_pass (m : M unit) : total (try_pass m).
Proof.
  intros s. unfold try_pass. destruct (m s) as [[a|e] s1]; eexists; reflexivity.
Qed.

Lemma total_for_each {A} (l : list A) (body : A -> M unit) :
  (forall x, total (body x)) -> total (for_each l body).
Proof.
  intros Hb. induction l as [|x l IH]; simpl.
  - apply total_ret.
  - apply total_bind; auto.
Qed.

Create HintDb stop_db.

#[local] Hint Resolve keeps_ret keeps_raise keeps_lift keeps_gets keeps_bind
  keeps_try_pass keeps_for_each total_ret total_gets total_modify total_bind
  total_try_pass total_for_each : stop_db.

Ltac step_bind :=
  lazymatch goal with
  | |- keeps_stop (bind _ _) => apply keeps_bind; [|intros ?]
  | |- total (bind _ _) => apply total_bind; [|intros ?]
  end.

Ltac keeps_setter :=
  apply keeps_modify; intros [? ? ? ? ? ? ? ? ? ? ? ?]; split; reflexivity.

#[local] Hint Extern 1 (keeps_stop (modify _)) => keeps_setter : stop_db.

Lemma keeps_setup_node : keeps_stop _setup_node.
Proof.
  unfold _setup_node. apply keeps_bind; [|auto with stop_db].
  apply keeps_bind; [auto with stop_db|].
  intros [z|]; auto with stop_db.
Qed.

Lemma total_setup_node : total _setup_node.
Proof.
  unfold _setup_node. apply total_bind; [|auto with stop_db].
  apply total_bind; [auto with stop_db|].
  intros [z|]; auto with stop_db.
Qed.

Lemma keeps_destroy_node : keeps_stop _destroy_node.
Proof. unfold _destroy_node. auto 10 with stop_db. Qed.

Lemma total_destroy_node : total _destroy_node.
Proof. unfold _destroy_node. auto 10 with stop_db. Qed.

Lemma destroy_node_clears self :
  _node (snd (_destroy_node self)) = None
  /\ _tpdo_timers (snd (_destroy_node self)) = [].
Proof.
  unfold _destroy_node.
  set (m := (do! timers := gets _tpdo_timers in
             for_each timers (fun timer => modify (call (TimerStop timer))))).
  assert (Ht : total m) by (subst m; auto 10 with stop_db).
  destruct (Ht self) as [a Ha].
  unfold bind. destruct (m self) as [[a'|e] s1]; simpl in *; [|discriminate].
  destruct s1. split; reflexivity.
Qed.

Section SupervisorProperties.

Context (stack : Stack).

Lemma keeps_send_emcy code data r :
  keeps_stop (send_emcy stack code data r).
Proof.
  intros s. unfold send_emcy. destruct (_network s).
  - apply keeps_try_pass. auto 10 with stop_db.
  - destruct r; split; reflexivity.
Qed.

Lemma total_send_emcy code data :
  total (send_emcy stack code data false).
Proof.
  intros s. unfold send_emcy. destruct (_network s).
  - apply total_try_pass.
  - eexists. reflexivity.
Qed.

Lemma keeps_restart_bus e b : keeps_stop (_restart_bus stack e b).
Proof.
  unfold _restart_bus. destruct (path_exists e); [auto with stop_db|].
  apply keeps_bind; [destruct (root e); auto with stop_db|]. intros _.
  apply keeps_bind; [auto with stop_db|]. intros _.
  destruct b; [apply keeps_send_emcy | auto with stop_db].
Qed.

Lemma total_restart_bus e b : total (_restart_bus stack e b).
Proof.
  unfold _restart_bus. destruct (path_exists e); [auto with stop_db|].
  apply total_bind; [destruct (root e); auto with stop_db|]. intros _.
  apply total_bind; [auto with stop_db|]. intros _.
  destruct b; [apply total_send_emcy | auto with stop_db].
Qed.

Lemma keeps_restart_network e : keeps_stop (_restart_network e).
Proof.
  unfold _restart_network.
  repeat step_bind; auto with stop_db.
  - apply keeps_setup_node.
  - apply keeps_try_pass. apply keeps_bind.
    + intros s. split; reflexivity.
    + intros x. destruct (heartbeat_raises e); auto 10 with stop_db.
  - destruct (stack_raises e); auto with stop_db.
Qed.

Lemma total_restart_network e :
  stack_raises e = None -> total (_restart_network e).
Proof.
  intros He. unfold _restart_network. rewrite He.
  repeat step_bind; auto with stop_db.
  apply total_setup_node.
Qed.

Lemma keeps_disable_network e : keeps_stop (_disable_network e).
Proof.
  intros s. unfold _disable_network.
  match goal with |- context [match ?m s with _ => _ end] =>
    assert (Hm : keeps_stop m) end.
  { apply keeps_bind; [|intros _; apply keeps_destroy_node].
    apply keeps_bind; [auto with stop_db|]. intros net.
    destruct (network_truthy net); [|auto with stop_db].
    destruct (disconnect_raises e); auto 10 with stop_db. }
  specialize (Hm s).
  match goal with |- context [match ?m s with _ => _ end] =>
    destruct (m s) as [[a|x] s1] end; [exact Hm|].
  destruct s1. exact Hm.
Qed.

Lemma total_disable_network e : total (_disable_network e).
Proof.
  intros s. unfold _disable_network.
  match goal with |- context [match ?m s with _ => _ end] =>
    destruct (m s) as [[a|x] s1] end; eexists; reflexivity.
Qed.

Lemma keeps_monitor_body e : keeps_stop (monitor_body stack e).
Proof.
  unfold monitor_body.
  apply keeps_bind; [auto with stop_db|]. intros kind.
  destruct (String.eqb kind "socketcand"); [auto with stop_db|].
  apply keeps_bind; [auto with stop_db|]. intros net.
  repeat match goal with |- keeps_stop (if ?c then _ else _) => destruct c end;
    repeat step_bind;
    auto using keeps_disable_network, keeps_restart_bus,
               keeps_restart_network with stop_db.
Qed.

Lemma total_monitor_body e :
  stack_raises e = None -> total (monitor_body stack e).
Proof.
  intros He. unfold monitor_body.
  apply total_bind; [auto with stop_db|]. intros kind.
  destruct (String.eqb kind "socketcand"); [auto with stop_db|].
  apply total_bind; [auto with stop_db|]. intros net.
  repeat match goal with |- total (if ?c then _ else _) => destruct c end;
    repeat step_bind;
    auto using total_disable_network, total_restart_bus,
               total_restart_network with stop_db.
Qed.

Lemma monitor_loop_stopped ticks self :
  _event self = true ->
  monitor_loop stack ticks self = Some (Ok tt, self).
Proof. intros H. destruct ticks; simpl; now rewrite H. Qed.

(** A pass and the wait after it: the body ends normally and the [stop]
    call of the pass, if any, is applied. *)
Lemma monitor_pass t self :
  stack_raises (env t) = None ->
  exists self1,
    (monitor_body stack (env t) ;; wait t) self
    = (Ok tt, match stop_call t with
              | Some reset => snd (stop reset self1)
              | None => self1
              end)
    /\ _event self1 = _event self /\ _reset self1 = _reset self.
Proof.
  intros He.
  destruct (total_monitor_body (env t) He self) as [a Ha].
  destruct (keeps_monitor_body (env t) self) as [Hev Hre].
  unfold bind.
  destruct (monitor_body stack (env t) self) as [[a'|x] self1];
    simpl in *; [|discriminate].
  exists self1. split; [|split; assumption].
  unfold wait. destruct (stop_call t) as [reset|]; [|reflexivity].
  unfold stop, bind. destruct reset; reflexivity.
Qed.

Lemma stop_sets reset self :
  _event (snd (stop reset self)) = true
  /\ _reset (snd (stop reset self))
     = match reset with Some r => r | None => _reset self end.
Proof. destruct self, reset; split; reflexivity. Qed.

(** Quiet passes leave the loop running, with the disposition as it
    was. *)
Lemma monitor_loop_quiet pre rest self :
  _event self = false ->
  Forall quiet pre ->
  exists self',
    monitor_loop stack (pre ++ rest) self
    = monitor_loop stack rest self'
    /\ _event self' = false /\ _reset self' = _reset self.
Proof.
  intros Hev Hpre. revert self Hev.
  induction Hpre as [|t pre [Hstop Hraise] _ IH]; intros self Hev.
  - exists self. auto.
  - destruct (monitor_pass t self Hraise) as (self1 & Hpass & Hev1 & Hre1).
    rewrite Hstop in Hpass.
    destruct (IH self1) as (self' & Hloop & Hev' & Hre'); [congruence|].
    exists self'. split; [|split; congruence].
    simpl. rewrite Hev, Hpass. exact Hloop.
Qed.

Lemma keeps_monitor_boot e0 : keeps_stop (monitor_boot stack e0).
Proof.
  unfold monitor_boot.
  repeat step_bind; auto using keeps_restart_bus with stop_db.
  match goal with |- keeps_stop (if ?c then _ else _) => destruct c end;
    repeat step_bind; auto using keeps_restart_network with stop_db.
Qed.

Lemma total_monitor_boot e0 :
  stack_raises e0 = None -> total (monitor_boot stack e0).
Proof.
  intros He0. unfold monitor_boot.
  repeat step_bind; auto using total_restart_bus with stop_db.
  match goal with |- total (if ?c then _ else _) => destruct c end;
    repeat step_bind; auto using total_restart_network with stop_db.
Qed.

(** The end of [run]: the node is destroyed and the disposition
    returned. *)
Lemma run_end self :
  exists self',
    (_destroy_node ;; gets _reset) self = (Ok (_reset self), self')
    /\ _event self' = _event self
    /\ _node self' = None /\ _tpdo_timers self' = [].
Proof.
  destruct (total_destroy_node self) as [u Hu].
  destruct (keeps_destroy_node self) as [Hev Hre].
  destruct (destroy_node_clears self) as [Hnode Htimers].
  exists (snd (_destroy_node self)).
  split; [|split; [assumption | split; assumption]].
  unfold bind, gets.
  destruct (_destroy_node self) as [[u'|x] self']; simpl in *;
    [|discriminate].
  now rewrite Hre.
Qed.

(** C9. While the loop of [run] is running, a call [stop(d)] makes the
    loop end at its next test and [run] return [d], with the local node
    destroyed and the timers stopped, whatever passes were scheduled
    after it. *)
Theorem run_returns_stop_disposition e0 pre t post d self :
  _event self = false ->
  stack_raises e0 = None ->
  Forall quiet pre ->
  stack_raises (env t) = None ->
  stop_call t = Some (Some d) ->
  exists self',
    run stack e0 (pre ++ t :: post) self = Some (Ok d, self')
    /\ _event self' = true
    /\ _node self' = None
    /\ _tpdo_timers self' = [].
Proof.
  intros Hev He0 Hpre Het Hstop.
  unfold run, _monitor_can. fold (monitor_boot stack e0).
  destruct (total_monitor_boot e0 He0 self) as [a Ha].
  destruct (keeps_monitor_boot e0 self) as [Hev0 Hre0].
  destruct (monitor_boot stack e0 self) as [[a'|x] self0]; simpl in *;
    [|discriminate].
  destruct (monitor_loop_quiet pre (t :: post) self0) as
    (self1 & Hloop & Hev1 & Hre1); [congruence | assumption |].
  rewrite Hloop. simpl. rewrite Hev1.
  destruct (monitor_pass t self1 Het) as (self2 & Hpass & Hev2 & Hre2).
  rewrite Hstop in Hpass. rewrite Hpass.
  destruct (stop_sets (Some d) self2) as [Hset Hd].
  rewrite monitor_loop_stopped by exact Hset.
  destruct (run_end (snd (stop (Some d) self2)))
    as (self' & Hend & Hev' & Hclear).
  exists self'. rewrite Hend, Hd. split; [reflexivity|].
  split; [congruence | exact Hclear].
Qed.

(** A node stopped before [run] is called: [run] returns the disposition at
    once, whatever the schedule and whatever the start of the monitor
    raises. *)
Lemma run_when_stopped e0 ticks self :
  _event self = true ->
  exists self',
    run stack e0 ticks self = Some (Ok (_reset self), self')
    /\ _event self' = true.
Proof.
  intros Hev. unfold run, _monitor_can. fold (monitor_boot stack e0).
  destruct (keeps_monitor_boot e0 self) as [Hev0 Hre0].
  destruct (monitor_boot stack e0 self) as [[a|x] self0]; simpl in *.
  - rewrite monitor_loop_stopped by congruence.
    destruct (run_end self0) as (self' & Hend & Hev' & _).
    exists self'. rewrite Hend, Hre0. split; [reflexivity | congruence].
  - destruct (run_end self0) as (self' & Hend & Hev' & _).
    exists self'. rewrite Hend, Hre0. split; [reflexivity | congruence].
Qed.

End SupervisorProperties.

Lemma run_returns_stop_disposition_witness :
  exists self',
    run Sample.stack sample_env (sample_ticks FACTORY_RESET)
        (Sample.node Sample.od_vars)
    = Some (Ok FACTORY_RESET, self')
    /\ NodeStop_value FACTORY_RESET = 3.
Proof.
  destruct (run_returns_stop_disposition Sample.stack sample_env
              [mkTick sample_env None; mkTick sample_env None]
              (mkTick sample_env (Some (Some FACTORY_RESET)))
              [mkTick sample_env None] FACTORY_RESET
              (Sample.node Sample.od_vars))
    as (self' & Hrun & _);
    try reflexivity.
  - repeat constructor.
  - exists self'. split; [exact Hrun | reflexivity].
Defined.

(** ** Loading: the COB-ID repair *)

Lemma od_getsub_assign_eq (od : gmap Z ODEntry) idx j x c :
  od_getsub od idx j = Ok c ->
  od_getsub (od_assign_value od idx (Some j) x) idx j
  = Ok (ODVariable.set_value x c).
Proof.
  intros H. apply od_getsub_Ok in H as (subs & Hi & Hj). apply od_getsub_Ok.
  exists (alter (ODVariable.set_value x) j subs). simpl. split.
  - rewrite lookup_alter_eq, Hi. reflexivity.
  - rewrite lookup_alter_eq, Hj. reflexivity.
Qed.

Lemma od_getsub_assign_ne (od : gmap Z ODEntry) idx j x idx' j' :
  idx' <> idx \/ j' <> j ->
  od_getsub (od_assign_value od idx (Some j) x) idx' j' = od_getsub od idx' j'.
Proof.
  intros Hne. unfold od_getsub, od_getitem. simpl.
  destruct (decide (idx' = idx)) as [->|Hidx].
  - rewrite lookup_alter_eq.
    destruct (od !! idx) as [[v|subs]|]; simpl; try reflexivity.
    rewrite lookup_alter_ne by (destruct Hne; congruence). reflexivity.
  - rewrite lookup_alter_ne by congruence. reflexivity.
Qed.

Lemma od_assign_is_Some (od : gmap Z ODEntry) idx sub x k :
  is_Some (od_assign_value od idx sub x !! k) <-> is_Some (od !! k).
Proof. destruct sub; simpl; apply lookup_alter_is_Some. Qed.

Lemma pdo_count_ext (od od' : gmap Z ODEntry) base :
  (forall k, is_Some (od !! k) <-> is_Some (od' !! k)) ->
  App.pdo_count od base = App.pdo_count od' base.
Proof.
  intros H. unfold App.pdo_count. do 2 f_equal.
  apply list_filter_iff. intros i. rewrite !bool_decide_spec. apply H.
Qed.

Lemma set_defaults_is_Some (eds : gmap Z ODEntry) k :
  is_Some (eds !! k) <-> is_Some (App.set_defaults eds !! k).
Proof.
  unfold App.set_defaults. rewrite lookup_fmap.
  symmetry. apply fmap_is_Some.
Qed.

(** After the first loop of [setup] every variable holds its default and
    the defaults are as in the file. *)
Lemma set_defaults_getsub (eds : gmap Z ODEntry) idx j c0 :
  od_getsub (App.set_defaults eds) idx j = Ok c0 ->
  exists c, od_getsub eds idx j = Ok c
            /\ ODVariable.default c0 = ODVariable.default c.
Proof.
  intros H. apply od_getsub_Ok in H as (subs0 & Hi & Hj).
  unfold App.set_defaults in Hi. rewrite lookup_fmap in Hi.
  destruct (eds !! idx) as [[v|subs]|] eqn:E; simpl in Hi; try discriminate.
  injection Hi as <-. rewrite lookup_fmap in Hj.
  destruct (subs !! j) as [c|] eqn:Ej; simpl in Hj; [|discriminate].
  injection Hj as <-. exists c. split; [|reflexivity].
  apply od_getsub_Ok. eauto.
Qed.

Lemma elem_of_range n i : i ∈ range n <-> 0 <= i < n.
Proof.
  unfold range. rewrite list_elem_of_fmap. split.
  - intros (k & -> & Hk). apply elem_of_seq in Hk. lia.
  - intros Hi. exists (Z.to_nat i). split; [lia|]. apply elem_of_seq. lia.
Qed.

Lemma NoDup_range n : NoDup (range n).
Proof.
  unfold range. apply NoDup_fmap; [|apply NoDup_seq].
  intros a b. lia.
Qed.

Lemma and_low_bits v low :
  Py.and_ v (VInt 0xFFF) = Ok low ->
  exists d, int_of v = Some d /\ low = Z.land d 0xFFF.
Proof.
  unfold Py.and_. destruct (int_of v) as [d|]; simpl; [|discriminate].
  intros [= <-]. eauto.
Qed.

(** What one COB-ID loop does: the keys of the dictionary stay, the slots
    of the loop get their new value, every other entry is as before. *)
Lemma fix_cob_ids_spec comm base defaults id todo :
  forall (od od' : gmap Z ODEntry),
    NoDup todo ->
    App.fix_cob_ids comm base defaults id todo od = Ok od' ->
    (forall k, is_Some (od' !! k) <-> is_Some (od !! k))
    /\ (forall idx j, (forall i, i ∈ todo -> idx <> comm + i \/ j <> 1) ->
          od_getsub od' idx j = od_getsub od idx j)
    /\ (forall i, i ∈ todo ->
          exists c d,
            od_getsub od (comm + i) 1 = Ok c
            /\ int_of (ODVariable.default c) = Some d
            /\ od_getsub od' (comm + i) 1
               = Ok (ODVariable.set_value
                       (if in_tuple (Z.land d 0xFFF) defaults
                        then VInt (base + 0x100 * (i mod 4) + id + i / 4)
                        else ODVariable.default c) c)).
Proof.
  induction todo as [|i rest IH]; intros od od' Hnd Hfix.
  - injection Hfix as <-. split; [tauto|]. split; [reflexivity|].
    intros i Hi. inversion Hi.
  - apply NoDup_cons in Hnd as [Hi Hnd]. cbn [App.fix_cob_ids] in Hfix.
    destruct (od_getsub od (comm + i) 1) as [c|] eqn:Hc; [|discriminate].
    cbn [rbind] in Hfix.
    destruct (Py.and_ (ODVariable.default c) (VInt 4095)) as [low|] eqn:Hlow;
      [|discriminate].
    cbn [rbind] in Hfix.
    apply and_low_bits in Hlow as (d & Hd & ->).
    destruct (IH _ _ Hnd Hfix) as (Hkeys & Hother & Hslots).
    split; [|split].
    + intros k. rewrite Hkeys. apply od_assign_is_Some.
    + intros idx j Hnot. rewrite Hother.
      * apply od_getsub_assign_ne. apply Hnot. left.
      * intros i' Hi'. apply Hnot. now right.
    + intros i' Hi'. apply elem_of_cons in Hi' as [->|Hi'].
      * exists c, d. split; [exact Hc|]. split; [exact Hd|].
        rewrite Hother.
        -- now apply od_getsub_assign_eq.
        -- intros i' Hi'. left. intros Heq.
           assert (i = i') by lia. subst. contradiction.
      * destruct (Hslots i' Hi') as (c' & d' & Hc' & Hd' & Hnew).
        exists c', d'. split; [|split; assumption].
        rewrite <- Hc'. symmetry. apply od_getsub_assign_ne.
        left. intros Heq. assert (i = i') by lia. subst. contradiction.
Qed.

Lemma pattern_injective c1 n1 c2 n2 :
  Repair.slot c1 n1 -> Repair.slot c2 n2 ->
  Repair.pattern c1 0x10 n1 = Repair.pattern c2 0x10 n2 ->
  c1 = c2 /\ n1 = n2.
Proof.
  intros [Hc1 Hn1] [Hc2 Hn2]. unfold Repair.pattern, Repair.base.
  pose proof (Z.div_mod n1 4 ltac:(lia)).
  pose proof (Z.div_mod n2 4 ltac:(lia)).
  pose proof (Z.mod_pos_bound n1 4 ltac:(lia)).
  pose proof (Z.mod_pos_bound n2 4 ltac:(lia)).
  destruct Hc1 as [-> | ->], Hc2 as [-> | ->]; simpl; lia.
Qed.

(** C4, as the code has it. After loading as node 0x10 a dictionary with
    sixteen RPDOs and sixteen TPDOs, every slot whose default COB-ID has a
    reserved default in its low 12 bits holds
    base + 0x100 (n mod 4) + 0x10 + n / 4 and every other slot holds its
    configured default; the thirty-two COB-IDs are pairwise distinct provided
    the COB-ID of every slot left in place differs from the resulting
    COB-ID of every other slot. *)
Theorem setup_repairs_cob_ids eds dcf app :
  App.setup eds dcf 0x10 = Ok app ->
  App.pdo_count eds 0x1400 = 16 ->
  App.pdo_count eds 0x1800 = 16 ->
  (forall comm n,
     Repair.slot comm n ->
     exists c v,
       od_getsub eds (comm + n) 1 = Ok c
       /\ int_of (ODVariable.default c) = Some (Repair.configured eds comm n)
       /\ App.cob_id app comm n = Ok v
       /\ v = (if Repair.is_reserved comm 0x10 (Repair.configured eds comm n)
               then VInt (Repair.pattern comm 0x10 n)
               else ODVariable.default c)
       /\ int_of v = Some (Repair.final eds 0x10 comm n))
  /\ ((forall c1 n1 c2 n2,
         Repair.slot c1 n1 -> Repair.slot c2 n2 -> (c1, n1) <> (c2, n2) ->
         Repair.is_reserved c1 0x10 (Repair.configured eds c1 n1) = false ->
         Repair.configured eds c1 n1 <> Repair.final eds 0x10 c2 n2) ->
      forall c1 n1 c2 n2,
        Repair.slot c1 n1 -> Repair.slot c2 n2 -> (c1, n1) <> (c2, n2) ->
        Repair.final eds 0x10 c1 n1 <> Repair.final eds 0x10 c2 n2).
Proof.
  intros Hsetup Hrpdo Htpdo. split.
  - unfold App.setup in Hsetup.
    change (App._load_node 16 eds dcf) with (App.mk eds 16) in Hsetup.
    cbn [App.od App._node_id] in Hsetup.
    rewrite <- (pdo_count_ext eds (App.set_defaults eds) 0x1400), Hrpdo
      in Hsetup by apply set_defaults_is_Some.
    destruct (App.fix_cob_ids 5120 512 _ 16 (range 16) (App.set_defaults eds))
      as [od1|] eqn:H1; [|discriminate].
    cbn [rbind] in Hsetup.
    apply fix_cob_ids_spec in H1 as (K1 & O1 & S1); [|apply NoDup_range].
    rewrite (pdo_count_ext od1 eds 0x1800), Htpdo in Hsetup
      by (intros k; rewrite K1; symmetry; apply set_defaults_is_Some).
    destruct (App.fix_cob_ids 6144 384 _ 16 (range 16) od1)
      as [od2|] eqn:H2; [|discriminate].
    cbn [rbind] in Hsetup. injection Hsetup as <-.
    apply fix_cob_ids_spec in H2 as (K2 & O2 & S2); [|apply NoDup_range].
    intros comm n [[-> | ->] Hn].
    + destruct (S1 n) as (c0 & d & Hc0 & Hd & Hnew); [now apply elem_of_range|].
      destruct (set_defaults_getsub _ _ _ _ Hc0) as (c & Hc & Hdef).
      assert (Hcfg : Repair.configured eds 5120 n = d).
      { unfold Repair.configured. rewrite Hc, <- Hdef, Hd. reflexivity. }
      eexists c, _. split; [exact Hc|]. split; [congruence|].
      split; [|split; [reflexivity|]].
      * unfold App.cob_id. cbn [App.od]. rewrite O2, Hnew.
        -- cbn [rbind ODVariable.set_value ODVariable.value].
           rewrite Hcfg, Hdef. reflexivity.
        -- intros i Hi. apply elem_of_range in Hi. left. lia.
      * unfold Repair.final, Repair.repaired.
        destruct (Repair.is_reserved 5120 16 (Repair.configured eds 5120 n));
          [reflexivity | congruence].
    + destruct (S2 n) as (c1 & d & Hc1 & Hd & Hnew); [now apply elem_of_range|].
      rewrite O1 in Hc1
        by (intros i Hi; apply elem_of_range in Hi; left; lia).
      destruct (set_defaults_getsub _ _ _ _ Hc1) as (c & Hc & Hdef).
      assert (Hcfg : Repair.configured eds 6144 n = d).
      { unfold Repair.configured. rewrite Hc, <- Hdef, Hd. reflexivity. }
      eexists c, _. split; [exact Hc|]. split; [congruence|].
      split; [|split; [reflexivity|]].
      * unfold App.cob_id. cbn [App.od]. rewrite Hnew.
        cbn [rbind ODVariable.set_value ODVariable.value].
        rewrite Hcfg, Hdef. reflexivity.
      * unfold Repair.final, Repair.repaired.
        destruct (Repair.is_reserved 6144 16 (Repair.configured eds 6144 n));
          [reflexivity | congruence].
  - intros Hkept c1 n1 c2 n2 Hs1 Hs2 Hne.
    destruct (Repair.is_reserved c1 16 (Repair.configured eds c1 n1)) eqn:E1.
    + destruct (Repair.is_reserved c2 16 (Repair.configured eds c2 n2)) eqn:E2.
      * unfold Repair.final, Repair.repaired. rewrite E1, E2. intros Heq.
        apply pattern_injective in Heq as [-> ->]; [|assumption..].
        now apply Hne.
      * intros Heq. apply (Hkept c2 n2 c1 n1); try assumption.
        -- intros [= -> ->]. now apply Hne.
        -- rewrite Heq. unfold Repair.final, Repair.repaired.
           now rewrite E2.
    + intros Heq. apply (Hkept c1 n1 c2 n2); try assumption.
      rewrite <- Heq. unfold Repair.final, Repair.repaired. now rewrite E1.
Qed.

Lemma sample_slots_reserved comm n :
  Repair.slot comm n ->
  Repair.is_reserved comm 0x10
    (Repair.configured (Sample.eds Sample.rpdo_default Sample.tpdo_default)
                       comm n) = true.
Proof.
  intros [Hcomm Hn].
  assert (Hall : forall comm',
    comm' = 0x1400 \/ comm' = 0x1800 ->
    forallb
      (fun k => Repair.is_reserved comm' 0x10
         (Repair.configured (Sample.eds Sample.rpdo_default Sample.tpdo_default)
                            comm' k))
      (range 16) = true).
  { intros comm' [-> | ->]; vm_compute; reflexivity. }
  specialize (Hall comm Hcomm). rewrite forallb_forall in Hall.
  apply Hall. apply list_elem_of_In, elem_of_range. exact Hn.
Qed.

Lemma setup_repairs_cob_ids_witness :
  App.cob_id Sample.loaded 0x1800 0 = Ok (VInt 0x190)
  /\ App.cob_id Sample.loaded 0x1800 15 = Ok (VInt 0x493)
  /\ (forall c1 n1 c2 n2,
        Repair.slot c1 n1 -> Repair.slot c2 n2 -> (c1, n1) <> (c2, n2) ->
        Repair.final (Sample.eds Sample.rpdo_default Sample.tpdo_default)
                     0x10 c1 n1
        <> Repair.final (Sample.eds Sample.rpdo_default Sample.tpdo_default)
                        0x10 c2 n2).
Proof.
  destruct (setup_repairs_cob_ids
              (Sample.eds Sample.rpdo_default Sample.tpdo_default) None
              Sample.loaded) as [Hslots Hdistinct];
    [vm_compute; reflexivity ..|].
  split; [vm_compute; reflexivity|]. split; [vm_compute; reflexivity|].
  apply Hdistinct. intros c1 n1 c2 n2 Hs1 _ _ Hkept.
  rewrite sample_slots_reserved in Hkept by assumption. discriminate.
Defined.

(** C4, as stated, fails on a dictionary whose TPDO6 is configured to
    0x191: TPDO5 carries the reserved default 0x190 and is rewritten to
    0x191, TPDO6 is not reserved and keeps 0x191, so two of the thirty-two
    COB-IDs are equal. *)
Lemma cob_ids_collide :
  exists app,
    App.setup (Sample.eds Sample.rpdo_default Sample.tpdo_default_191) None 0x10
    = Ok app
    /\ App.pdo_count (Sample.eds Sample.rpdo_default Sample.tpdo_default_191)
                     0x1800 = 16
    /\ App.cob_id app 0x1800 4 = Ok (VInt 0x191)
    /\ App.cob_id app 0x1800 5 = Ok (VInt 0x191)
    /\ ~ NoDup (App.pdo_cob_ids app).
Proof.
  eexists. split; [vm_compute; reflexivity|].
  split; [vm_compute; reflexivity|].
  split; [vm_compute; reflexivity|].
  split; [vm_compute; reflexivity|].
  intros Hnd.
  assert (H45 : 4%nat = 5%nat); [|discriminate].
  eapply (NoDup_lookup _ 4%nat 5%nat (Ok (VInt 0x191)) Hnd);
    vm_compute; reflexivity.
Qed.

(** ** More on the EMCY and PDO engine *)

Lemma calls_added_app cs1 cs2 self :
  calls_added cs2 (calls_added cs1 self)
  = calls_added (cs1 ++ cs2)%list self.
Proof. unfold calls_added. now rewrite fold_left_app. Qed.

Lemma calls_added_fields cs self :
  _od (calls_added cs self) = _od self
  /\ _syncs (calls_added cs self) = _syncs self
  /\ _network (calls_added cs self) = _network self
  /\ _node (calls_added cs self) = _node self
  /\ _event (calls_added cs self) = _event self
  /\ _reset (calls_added cs self) = _reset self
  /\ calls (calls_added cs self) = (calls self ++ cs)%list.
Proof.
  revert self. induction cs as [|c cs IH]; intros self.
  - simpl. rewrite app_nil_r. repeat split; reflexivity.
  - change (calls_added (c :: cs) self) with (calls_added cs (call c self)).
    destruct (IH (call c self)) as (H1 & H2 & H3 & H4 & H5 & H6 & H7).
    rewrite H1, H2, H3, H4, H5, H6, H7. destruct self; simpl.
    rewrite <- app_assoc. repeat split; reflexivity.
Qed.

Section EngineFrame.

Context (stack : Stack).

(** [send_emcy] changes nothing but the calls, by at most one. *)
Lemma send_emcy_frame code data raise_exception self :
  exists cs,
    snd (send_emcy stack code data raise_exception self) = calls_added cs self
    /\ (length cs <= 1)%nat
    /\ forallb pdo_call cs = true
    /\ (forall e, fst (send_emcy stack code data raise_exception self) = Raise e
                  -> cs = []).
Proof.
  unfold send_emcy. destruct (_network self).
  - unfold try_pass, bind, lift, modify.
    destruct (_node self); [|exists []; simpl; auto].
    destruct (error_register self);
      [eexists [_] | exists []]; simpl; repeat split; auto; discriminate.
  - exists []. destruct raise_exception; simpl; auto.
Qed.

(** [_send_pdo] changes nothing but the calls, by at most one. *)
Lemma send_pdo_frame comm_index map_index raise_exception self :
  exists cs,
    snd (_send_pdo stack comm_index map_index raise_exception self)
    = calls_added cs self
    /\ (length cs <= 1)%nat
    /\ forallb pdo_call cs = true
    /\ (forall e,
          fst (_send_pdo stack comm_index map_index raise_exception self)
          = Raise e -> cs = []).
Proof.
  unfold _send_pdo. destruct (_network self);
    [|exists []; destruct raise_exception; simpl; auto].
  destruct (link_silent stack self); [exists []; simpl; auto|].
  unfold bind, lift.
  destruct (pdo_cob_id self comm_index) as [cob|]; [|exists []; simpl; auto].
  destruct (pdo_maps self map_index) as [maps|]; [|exists []; simpl; auto].
  destruct (pdo_data_loop stack self map_index (range maps) [])
    as [data|]; [|exists []; simpl; auto].
  destruct (8 <? Z.of_nat (length data)).
  - apply send_emcy_frame.
  - eexists [_]. simpl. repeat split; auto. discriminate.
Qed.

(** X1. Whatever its arguments and the state of the link, [_send_pdo]
    leaves the node as it was apart from at most one outgoing call, a frame
    or an emergency message; when it raises, it has made no call at all. *)
Theorem send_pdo_changes_only_calls comm_index map_index raise_exception
    self :
  exists cs,
    snd (_send_pdo stack comm_index map_index raise_exception self)
    = calls_added cs self
    /\ (length cs <= 1)%nat
    /\ forallb pdo_call cs = true
    /\ (forall e,
          fst (_send_pdo stack comm_index map_index raise_exception self)
          = Raise e -> cs = []).
Proof. apply send_pdo_frame. Qed.

(** The body of the SYNC loop changes nothing but the calls. *)
Lemma on_sync_slot_frame i self :
  exists cs,
    snd (on_sync_slot stack i self) = calls_added cs self
    /\ forallb pdo_call cs = true.
Proof.
  unfold on_sync_slot, bind, gets, lift, ret.
  destruct (od_getsub (_od self) (6144 + i) 2) as [v|];
    [|exists []; split; reflexivity].
  cbn [rbind].
  destruct (Py.mod_ (VInt (_syncs self)) (ODVariable.value v)) as [r|];
    [|exists []; split; reflexivity].
  destruct (Py.eqb r (VInt 0)); [|exists []; split; reflexivity].
  unfold send_tpdo. destruct (i <? 1); [exists []; split; reflexivity|].
  cbv zeta.
  destruct (send_pdo_frame (6144 + (i - 1)) (6656 + (i - 1)) false self)
    as (cs & Hcs & _ & Hall & _).
  exists cs. split; assumption.
Qed.

Lemma for_each_slot_frame l self :
  exists cs,
    snd (for_each l (on_sync_slot stack) self) = calls_added cs self
    /\ forallb pdo_call cs = true.
Proof.
  revert self. induction l as [|i l IH]; intros self.
  - exists []. split; reflexivity.
  - cbn [for_each]. unfold bind at 1.
    destruct (on_sync_slot_frame i self) as (cs1 & H1 & Hall1).
    destruct (on_sync_slot stack i self) as [[u|e] s1]; cbn [snd] in H1;
      subst s1.
    + destruct (IH (calls_added cs1 self)) as (cs2 & H2 & Hall2).
      exists (cs1 ++ cs2)%list. rewrite H2, calls_added_app.
      split; [reflexivity|]. rewrite forallb_app, Hall1, Hall2. reflexivity.
    + exists cs1. split; [reflexivity | assumption].
Qed.

(** X2. However the SYNC handler ends, normally or by an exception, it has
    advanced the counter by one step of its 1..240 cycle and has otherwise
    only added outgoing frames or emergency messages: the dictionary, the
    network, the stop flag and the disposition are untouched. *)
Theorem on_sync_changes_counter_and_calls cob_id data timestamp self :
  exists cs,
    snd (_on_sync stack cob_id data timestamp self)
    = calls_added cs (set_syncs (next_syncs (_syncs self)) self)
    /\ forallb pdo_call cs = true.
Proof.
  unfold _on_sync. unfold bind at 1. unfold modify at 1.
  apply for_each_slot_frame.
Qed.

End EngineFrame.

Section EngineMore.

Context (stack : Stack).

(** A send that gets past the link test and reads its COB-ID, count and
    data ends in the length test. *)
Lemma send_pdo_reaches_test self comm_index map_index raise_exception net
    cob_id maps data :
  _network self = Some net ->
  link_silent stack self = false ->
  pdo_cob_id self comm_index = Ok cob_id ->
  pdo_maps self map_index = Ok maps ->
  pdo_data_loop stack self map_index (range maps) [] = Ok data ->
  _send_pdo stack comm_index map_index raise_exception self
  = (if 8 <? Z.of_nat (length data)
     then send_emcy stack (OfEnum PROTOCOL_PDO_LEN_EXCEEDED) [] false
     else modify (call (NetworkSendMessage cob_id data))) self.
Proof.
  intros Hnet Hlink Hcob Hmaps Hdata.
  unfold _send_pdo. rewrite Hnet, Hlink.
  unfold bind, lift. rewrite Hcob, Hmaps, Hdata. reflexivity.
Qed.

(** X3. [send_rpdo(n)] for [n] from 1 on reads the rows [0x1400 + n - 1]
    and [0x1600 + n - 1]; when the mapped data is at most 8 bytes long,
    the empty frame included, it is handed to the network on the COB-ID of
    that row, and nothing else changes. *)
Theorem send_rpdo_transmits self n raise_exception net cob_id maps data :
  1 <= n ->
  _network self = Some net ->
  link_silent stack self = false ->
  pdo_cob_id self (0x1400 + (n - 1)) = Ok cob_id ->
  pdo_maps self (0x1600 + (n - 1)) = Ok maps ->
  pdo_data_loop stack self (0x1600 + (n - 1)) (range maps) [] = Ok data ->
  (length data <= 8)%nat ->
  send_rpdo stack n raise_exception self
  = (Ok tt, call (NetworkSendMessage cob_id data) self).
Proof.
  intros Hn Hnet Hlink Hcob Hmaps Hdata Hlen.
  unfold send_rpdo.
  replace (n <? 1) with false by (symmetry; apply Z.ltb_ge; lia).
  cbv zeta.
  rewrite (send_pdo_reaches_test _ _ _ _ net cob_id maps data) by assumption.
  replace (8 <? Z.of_nat (length data)) with false
    by (symmetry; apply Z.ltb_ge; lia).
  reflexivity.
Qed.

(** A zero map word at position [k] makes the loop end there: what comes
    after it in the list of positions is never looked at. *)
Lemma pdo_data_loop_zero_word self map_index pre k rest m :
  od_getsub (_od self) map_index (k + 1) = Ok m ->
  Py.eqb (ODVariable.value m) (VInt 0) = true ->
  forall data,
    pdo_data_loop stack self map_index (pre ++ k :: rest) data
    = pdo_data_loop stack self map_index (pre ++ [k]) data.
Proof.
  intros Hm Hzero. induction pre as [|i pre IH]; intros data.
  - simpl. rewrite Hm. simpl. now rewrite Hzero.
  - simpl.
    destruct (od_getsub (_od self) map_index (i + 1)) as [mi|]; [|reflexivity].
    simpl. destruct (Py.eqb (ODVariable.value mi) (VInt 0)); [reflexivity|].
    destruct (to_bytes_4_big (ODVariable.value mi)) as [b|]; [|reflexivity].
    simpl. destruct (unpack_HBB b) as [[index subindex] len].
    destruct (od_getitem (_od self) index) as [e|]; [|reflexivity].
    simpl.
    match goal with |- context [rbind ?r _] => destruct r as [bytes|] end;
      [|reflexivity].
    simpl. apply IH.
Qed.

Lemma range_split n k :
  0 <= k < n ->
  exists rest, range n = (range k ++ k :: rest)%list.
Proof.
  intros Hk. unfold range.
  replace (Z.to_nat n) with (Z.to_nat k + S (Z.to_nat (n - k - 1)))%nat by lia.
  rewrite seq_app, map_app. simpl. rewrite Z2Nat.id by lia.
  eexists. reflexivity.
Qed.

(** X4. A mapping whose word at subindex [k + 1] is zero is cut there:
    whatever the count in subindex 0 says beyond [k] and whatever the later
    subindices hold (or lack), the data is that of the first [k] words. *)
Theorem pdo_mapping_ends_at_zero_word self map_index k maps m :
  0 <= k < maps ->
  od_getsub (_od self) map_index (k + 1) = Ok m ->
  Py.eqb (ODVariable.value m) (VInt 0) = true ->
  pdo_data_loop stack self map_index (range maps) []
  = pdo_data_loop stack self map_index (range (k + 1)) [].
Proof.
  intros Hk Hm Hzero.
  destruct (range_split maps k Hk) as [rest ->].
  destruct (range_split (k + 1) k ltac:(lia)) as [rest' ->].
  rewrite (pdo_data_loop_zero_word self map_index (range k) k rest m Hm Hzero).
  now rewrite (pdo_data_loop_zero_word self map_index (range k) k rest' m
                 Hm Hzero).
Qed.

(** X5. The COB-ID a PDO is sent on is the stored one cut to its low 30
    bits: it lies in [0, 2^30) also when the stored value is negative or has
    the two top flag bits set. *)
Theorem pdo_cob_id_30_bits self comm_index cob_id :
  pdo_cob_id self comm_index = Ok cob_id ->
  0 <= cob_id < 2 ^ 30
  /\ exists c stored,
       od_getsub (_od self) comm_index 1 = Ok c
       /\ int_of (ODVariable.value c) = Some stored
       /\ cob_id = stored mod 2 ^ 30.
Proof.
  unfold pdo_cob_id.
  destruct (od_getsub (_od self) comm_index 1) as [c|]; [|discriminate].
  simpl. unfold Py.and_.
  destruct (int_of (ODVariable.value c)) as [stored|] eqn:Hint;
    [|discriminate].
  simpl. intros [= <-].
  change 1073741823 with (Z.ones 30). rewrite Z.land_ones by lia.
  split; [apply Z.mod_pos_bound; lia|].
  exists c, stored. split; [reflexivity|]. split; [exact Hint | reflexivity].
Qed.

(** X6. With the network object present, [send_emcy] sends nothing and
    raises nothing when the local node is gone or the dictionary has no
    usable error register at 0x1001: the failure is swallowed. *)
Theorem send_emcy_drops_silently self code data raise_exception net :
  _network self = Some net ->
  _node self = None \/ (exists e, error_register self = Raise e) ->
  send_emcy stack code data raise_exception self = (Ok tt, self).
Proof.
  intros Hnet Hmiss. unfold send_emcy, try_pass, bind, lift.
  rewrite Hnet. destruct Hmiss as [Hnode | [e He]].
  - now rewrite Hnode.
  - destruct (_node self); [|reflexivity]. now rewrite He.
Qed.

End EngineMore.

(** X7. The decoding of a map word undoes its packing: for an index below
    2^16 and a subindex and a bit length below 2^8, the word
    index * 2^16 + subindex * 2^8 + length is written as four big-endian
    bytes that unpack to the same index, subindex and length. *)
Theorem map_word_round_trip index subindex len :
  0 <= index < 65536 ->
  0 <= subindex < 256 ->
  0 <= len < 256 ->
  exists b,
    to_bytes_4_big (VInt (index * 65536 + subindex * 256 + len)) = Ok b
    /\ unpack_HBB b = (index, subindex, len).
Proof.
  intros Hi Hs Hl. unfold to_bytes_4_big. cbn [int_of].
  set (w := index * 65536 + subindex * 256 + len).
  replace ((w <? 0) || (2 ^ 32 <=? w)) with false
    by (symmetry; apply orb_false_iff; split;
        [apply Z.ltb_ge | apply Z.leb_gt]; subst w; lia).
  eexists. split; [reflexivity|].
  change 255 with (Z.ones 8). rewrite !Z.land_ones by lia.
  rewrite !Z.shiftr_div_pow2 by lia.
  cbn [unpack_HBB].
  change (2 ^ 24) with 16777216. change (2 ^ 16) with 65536.
  change (2 ^ 8) with 256.
  assert (H16 : w / 65536 = index)
    by (symmetry; apply (Z.div_unique w 65536 index (subindex * 256 + len));
        subst w; lia).
  assert (H8 : w / 256 = index * 256 + subindex)
    by (symmetry; apply (Z.div_unique w 256 (index * 256 + subindex) len);
        subst w; lia).
  assert (H24 : w / 16777216 = index / 256).
  { change 16777216 with (65536 * 256).
    rewrite <- Z.div_div by lia. now rewrite H16. }
  rewrite H24, H16, H8.
  assert (Hb0 : (index / 256) mod 256 = index / 256).
  { apply Z.mod_small. split; [apply Z.div_pos; lia|].
    apply Z.div_lt_upper_bound; lia. }
  assert (Hb2 : (index * 256 + subindex) mod 256 = subindex).
  { symmetry. apply (Z.mod_unique _ 256 index); lia. }
  assert (Hb3 : w mod 256 = len).
  { symmetry. apply (Z.mod_unique w 256 (index * 256 + subindex));
      subst w; lia. }
  rewrite Hb0, Hb2, Hb3.
  pose proof (Z.div_mod index 256 ltac:(lia)) as Hdm.
  repeat f_equal. lia.
Qed.

Lemma map_word_round_trip_witness :
  exists b,
    to_bytes_4_big (VInt 0x20100020) = Ok b
    /\ unpack_HBB b = (0x2010, 0, 0x20).
Proof.
  apply (map_word_round_trip 0x2010 0 0x20); lia.
Defined.

Section SyncMore.

Context (stack : Stack).

Lemma for_each_nothing_due l :
  forall self,
    (forall i, i ∈ l ->
       exists v ttype,
         od_getsub (_od self) (0x1800 + i) 2 = Ok v
         /\ ODVariable.value v = VInt ttype
         /\ ttype <> 0
         /\ _syncs self mod ttype <> 0) ->
    for_each l (on_sync_slot stack) self = (Ok tt, self).
Proof.
  induction l as [|i l IH]; intros self Hl; [reflexivity|].
  cbn [for_each]. unfold bind at 1.
  destruct (Hl i) as (v & ttype & Hv & Hval & Hne & Hmod); [left|].
  rewrite (on_sync_slot_step stack i self v ttype Hv Hval).
  replace (ttype =? 0) with false by (symmetry; apply Z.eqb_neq; exact Hne).
  replace (_syncs self mod ttype =? 0) with false
    by (symmetry; apply Z.eqb_neq; exact Hmod).
  apply IH. intros j Hj. apply Hl. now right.
Qed.

(** X8. When no slot is due, that is when each of the sixteen transmission
    types is a non-zero integer that does not divide the advanced counter,
    the SYNC handler sends nothing and only advances the counter. *)
Theorem on_sync_nothing_due cob_id data timestamp self :
  (forall i, 0 <= i < 16 ->
     exists v ttype,
       od_getsub (_od self) (0x1800 + i) 2 = Ok v
       /\ ODVariable.value v = VInt ttype
       /\ ttype <> 0
       /\ next_syncs (_syncs self) mod ttype <> 0) ->
  _on_sync stack cob_id data timestamp self
  = (Ok tt, set_syncs (next_syncs (_syncs self)) self).
Proof.
  intros Hslots. unfold _on_sync. unfold bind at 1. unfold modify at 1.
  apply for_each_nothing_due. intros i Hi. apply elem_of_range in Hi.
  destruct (Hslots i Hi) as (v & ttype & Hv & Hrest).
  exists v, ttype. split; [exact Hv | exact Hrest].
Qed.

End SyncMore.

Lemma on_sync_nothing_due_witness :
  _on_sync Sample.stack 0x80 [] (0 # 1)
    (Sample.node_up (Sample.od_pdo (fun _ => 255)))
  = (Ok tt, set_syncs 1 (Sample.node_up (Sample.od_pdo (fun _ => 255)))).
Proof.
  apply (on_sync_nothing_due Sample.stack 0x80 [] (0 # 1)
           (Sample.node_up (Sample.od_pdo (fun _ => 255)))).
  intros i Hi.
  exists (Sample.var "transmission_type" UNSIGNED8 (VInt 255)), 255.
  split; [|split; [reflexivity | split; [lia | vm_compute; discriminate]]].
  apply elem_of_range in Hi.
  set (l := range 16) in Hi. cbv in l. subst l.
  repeat (apply elem_of_cons in Hi as [-> | Hi]; [vm_compute; reflexivity|]).
  inversion Hi.
Defined.

(** The engine on the dictionary with one RPDO. *)

Lemma send_rpdo_transmits_witness :
  send_rpdo Sample.stack 1 true Case.node
  = (Ok tt,
     call (NetworkSendMessage 0x210
             [Byte.x44; Byte.x33; Byte.x22; Byte.x11]) Case.node).
Proof.
  apply (send_rpdo_transmits Sample.stack Case.node 1 true
           (mkNetwork 1 true) 0x210 3
           [Byte.x44; Byte.x33; Byte.x22; Byte.x11]);
    try reflexivity; simpl; lia.
Defined.

Lemma pdo_mapping_ends_at_zero_word_witness :
  pdo_data_loop Sample.stack Case.node 0x1600 (range 3) []
  = pdo_data_loop Sample.stack Case.node 0x1600 (range 2) []
  /\ pdo_data_loop Sample.stack Case.node 0x1600 (range 2) []
     = Ok [Byte.x44; Byte.x33; Byte.x22; Byte.x11].
Proof.
  split; [|reflexivity].
  apply (pdo_mapping_ends_at_zero_word Sample.stack Case.node 0x1600 1 3
           (Sample.var "map" UNSIGNED32 (VInt 0)));
    [lia | reflexivity | reflexivity].
Defined.

Lemma pdo_cob_id_30_bits_witness :
  pdo_cob_id Case.node 0x1400 = Ok 0x210 /\ 0 <= 0x210 < 2 ^ 30.
Proof.
  split; [reflexivity|].
  apply (pdo_cob_id_30_bits Case.node 0x1400 0x210). reflexivity.
Defined.

Lemma send_emcy_drops_silently_witness :
  send_emcy Sample.stack (OfInt 0x1000) [] true (set_node None Case.node)
  = (Ok tt, set_node None Case.node).
Proof.
  apply (send_emcy_drops_silently Sample.stack (set_node None Case.node)
           (OfInt 0x1000) [] true (mkNetwork 1 true));
    [reflexivity | left; reflexivity].
Defined.

(** ** More on the object dictionary helpers *)



(** Comparison of two ints as Python values. *)
Lemma lt_ints a b : Py.lt (VInt a) (VInt b) = Ok (a <? b).
Proof.
  unfold Py.lt, Qle_bool. simpl. rewrite !Z.mul_1_r.
  f_equal. rewrite Z.ltb_antisym. reflexivity.
Qed.

(** X10. For a variable of an integer type with integer limits,
    [_var_write] accepts every int when one of the limits is 0, and
    otherwise accepts exactly the ints from [min] to [max], raising
    [ValueError] for the others. *)
Theorem var_write_limits obj lo hi z :
  in_tuple (ODVariable.data_type obj) INTEGER_TYPES = true ->
  ODVariable.min obj = VInt lo ->
  ODVariable.max obj = VInt hi ->
  _var_write obj (VInt z)
  = if (lo =? 0) || (hi =? 0) then Ok tt
    else if (z <? lo) || (hi <? z) then Raise ValueError
    else Ok tt.
Proof.
  intros Hint Hlo Hhi. unfold _var_write, check_limits, Py.gt.
  rewrite Hint, Hlo, Hhi. cbn [type_is_int negb].
  rewrite !eqb_ints, !lt_ints.
  destruct (lo =? 0), (hi =? 0); cbn [negb andb orb rbind]; try reflexivity.
  destruct (hi <? z); cbn [rbind orb].
  - now rewrite orb_true_r.
  - rewrite orb_false_r. now destruct (z <? lo).
Qed.

Lemma var_write_limits_witness :
  _var_write Case.level (VInt 10) = Ok tt
  /\ _var_write Case.level (VInt 11) = Raise ValueError.
Proof.
  split.
  - apply (var_write_limits Case.level (-5) 10 10); reflexivity.
  - apply (var_write_limits Case.level (-5) 10 11); reflexivity.
Defined.

(** *** Bit fields on the positions 0 .. k-1 *)

Lemma length_range k : 0 <= k -> Z.of_nat (length (range k)) = k.
Proof.
  intros Hk. unfold range. rewrite length_map, length_seq. lia.
Qed.

Lemma index_range k i : 0 <= i < k -> Py.index (range k) i = Ok i.
Proof.
  intros Hi. unfold Py.index. rewrite length_range by lia.
  replace (i <? 0) with false by (symmetry; apply Z.ltb_ge; lia).
  replace ((i <? 0) || (k <=? i)) with false
    by (symmetry; apply orb_false_iff; split;
        [apply Z.ltb_ge | apply Z.leb_gt]; lia).
  unfold range. rewrite list_lookup_fmap, lookup_seq_lt by lia.
  simpl. f_equal. lia.
Qed.

(** One bit of an int, as the body of the read loop computes it. *)
Lemma bit_by_mask z i :
  0 <= i -> Z.shiftr (Z.land z (Z.shiftl 1 i)) i = Z.b2z (Z.testbit z i).
Proof.
  intros Hi. rewrite Z.shiftr_land, Z.shiftr_shiftl_l by lia.
  rewrite Z.sub_diag, Z.shiftl_0_r.
  change 1 with (Z.ones 1). rewrite Z.land_ones by lia.
  rewrite Z.shiftr_div_pow2 by lia. change (2 ^ 1) with 2.
  symmetry. apply Z.testbit_spec'. lia.
Qed.

Lemma read_bitfield_loop_range z k todo value :
  (forall i, i ∈ todo -> 0 <= i < k) ->
  read_bitfield_loop (VInt z) (range k) todo value
  = Ok (fold_left (fun acc i => Z.lor acc (Z.b2z (Z.testbit z i))) todo value).
Proof.
  revert value. induction todo as [|i todo IH]; intros value Htodo;
    [reflexivity|].
  cbn [read_bitfield_loop fold_left].
  assert (Hi : 0 <= i < k) by (apply Htodo; left).
  rewrite index_range by exact Hi. cbn [rbind]. unfold Py.shl, Py.shr.
  replace (i <? 0) with false by (symmetry; apply Z.ltb_ge; lia).
  cbn [rbind Py.and_ int_of]. rewrite bit_by_mask by lia.
  apply IH. intros j Hj. apply Htodo. now right.
Qed.

Lemma fold_lor_bits z todo value :
  value = 0 \/ value = 1 ->
  fold_left (fun acc i => Z.lor acc (Z.b2z (Z.testbit z i))) todo value
  = if (value =? 1) || existsb (Z.testbit z) todo then 1 else 0.
Proof.
  revert value. induction todo as [|i todo IH]; intros value Hv.
  - simpl. rewrite orb_false_r. destruct Hv as [-> | ->]; reflexivity.
  - cbn [fold_left existsb]. rewrite IH.
    + destruct Hv as [-> | ->], (Z.testbit z i); reflexivity.
    + destruct Hv as [-> | ->], (Z.testbit z i); simpl; auto.
Qed.

(** X11. For a field defined on the positions 0 .. k-1, [od_read_bitfield]
    does not return the field's value: it returns 1 when at least one of
    these bits of the stored int is set and 0 otherwise. *)
Theorem od_read_bitfield_low_field index subindex field self obj k z :
  od_get_obj index subindex self = Ok (ODVar obj) ->
  ODVariable.bit_definitions obj !! field = Some (range k) ->
  ODVariable.value obj = VInt z ->
  od_read_bitfield index subindex field self
  = Ok (if existsb (Z.testbit z) (range k) then 1 else 0).
Proof.
  intros Hobj Hbits Hz. unfold od_read_bitfield, bits_of.
  rewrite Hobj. cbn [rbind as_variable]. rewrite Hbits, Hz. cbn [rbind].
  rewrite read_bitfield_loop_range
    by (intros i Hi; now apply elem_of_range in Hi).
  f_equal. apply fold_lor_bits. now left.
Qed.

Lemma od_read_bitfield_low_field_witness :
  od_read_bitfield 0x2100 None "low" (Sample.node Case.od_flags) = Ok 1
  /\ od_read 0x2100 None (Sample.node Case.od_flags) = Ok (VInt 0x05).
Proof.
  split; [|reflexivity].
  apply (od_read_bitfield_low_field 0x2100 None "low"
           (Sample.node Case.od_flags) Case.flags 3 0x05);
    reflexivity.
Defined.

Lemma write_bitfield_mask_range k todo mask :
  (forall i, i ∈ todo -> 0 <= i < k) ->
  write_bitfield_mask (range k) todo mask
  = Ok (fold_left (fun acc i => Z.lor acc (Z.shiftl 1 i)) todo mask).
Proof.
  revert mask. induction todo as [|i todo IH]; intros mask Htodo;
    [reflexivity|].
  cbn [write_bitfield_mask fold_left].
  assert (Hi : 0 <= i < k) by (apply Htodo; left).
  rewrite index_range by exact Hi. cbn [rbind]. unfold Py.shl.
  replace (i <? 0) with false by (symmetry; apply Z.ltb_ge; lia).
  cbn [rbind]. apply IH. intros j Hj. apply Htodo. now right.
Qed.

Lemma range_succ k : 0 <= k -> range (k + 1) = (range k ++ [k])%list.
Proof.
  intros Hk. unfold range.
  replace (Z.to_nat (k + 1)) with (S (Z.to_nat k)) by lia.
  rewrite seq_S, map_app. simpl. now rewrite Z2Nat.id by lia.
Qed.

Lemma mask_of_range k :
  0 <= k ->
  fold_left (fun acc i => Z.lor acc (Z.shiftl 1 i)) (range k) 0 = Z.ones k.
Proof.
  intros Hk. pattern k. apply natlike_ind; [reflexivity | | exact Hk].
  clear k Hk. intros k Hk IH. change (Z.succ k) with (k + 1).
  rewrite range_succ by lia. rewrite fold_left_app, IH. cbn [fold_left].
  apply Z.bits_inj'. intros n Hn.
  rewrite Z.lor_spec, Z.shiftl_1_l, Z.pow2_bits_eqb by lia.
  destruct (Z.eqb_spec k n) as [->|Hne].
  - rewrite orb_true_r. symmetry. apply Z.ones_spec_low. lia.
  - rewrite orb_false_r.
    destruct (Z.lt_ge_cases n k).
    + rewrite !Z.ones_spec_low by lia. reflexivity.
    + rewrite !Z.ones_spec_high by lia. reflexivity.
Qed.

Lemma min_list_range k : 0 < k -> Py.min_list (range k) = Ok 0.
Proof.
  intros Hk. unfold range.
  replace (Z.to_nat k) with (S (Z.to_nat (k - 1))) by lia.
  cbn [seq map Py.min_list]. f_equal.
  generalize (seq 1 (Z.to_nat (k - 1))). intros l.
  induction l as [|x l IH]; [reflexivity|].
  cbn [map fold_left]. rewrite Z.min_l by lia. exact IH.
Qed.

(** X12. For a field defined on the positions 0 .. k-1 of a variable
    holding the int [z], [od_write_bitfield] stores
    (z xor (2^k - 1)) or value: the bits of the field are toggled, not
    cleared, before the value is put in. *)
Theorem od_write_bitfield_low_field index subindex field value self obj k z :
  0 < k ->
  od_get_obj index subindex self = Ok (ODVar obj) ->
  ODVariable.bit_definitions obj !! field = Some (range k) ->
  ODVariable.value obj = VInt z ->
  fst (od_write_bitfield index subindex field value self) = Ok tt
  /\ od_read index subindex
       (snd (od_write_bitfield index subindex field value self))
     = Ok (VInt (Z.lor (Z.lxor z (Z.ones k)) value)).
Proof.
  intros Hk Hobj Hbits Hz.
  unfold od_write_bitfield, bind, lift, modify, bits_of.
  rewrite Hobj. cbn [as_variable]. rewrite Hbits.
  rewrite min_list_range by exact Hk.
  rewrite write_bitfield_mask_range
    by (intros i Hi; now apply elem_of_range in Hi).
  rewrite mask_of_range by lia. rewrite Hz. cbn [int_of].
  unfold Py.shl. cbn [Z.ltb Z.compare]. rewrite Z.shiftl_0_r.
  cbn [fst snd]. split; [reflexivity|].
  erewrite od_read_stored by (apply od_get_obj_assign; exact Hobj).
  reflexivity.
Qed.

Lemma od_write_bitfield_low_field_witness :
  od_read 0x2100 None
    (snd (od_write_bitfield 0x2100 None "low" 0 (Sample.node Case.od_flags)))
  = Ok (VInt 0x02).
Proof.
  apply (od_write_bitfield_low_field 0x2100 None "low" 0
           (Sample.node Case.od_flags) Case.flags 3 0x05);
    try reflexivity; lia.
Defined.

(** ** More on stopping and supervision *)

(** X13. Two [stop] calls in a row: the event is set, and the disposition
    is the one of the later call that gives one; a later [stop()] without
    disposition does not erase an earlier one. Nothing else changes. *)
Theorem stop_twice r1 r2 self :
  (stop r1 ;; stop r2) self
  = (Ok tt,
     set_event true
       (set_reset
          match r2, r1 with
          | Some r, _ => r
          | None, Some r => r
          | None, None => _reset self
          end self)).
Proof. destruct self, r1, r2; reflexivity. Qed.

Lemma for_each_timer_stop timers self :
  for_each timers (fun timer => modify (call (TimerStop timer))) self
  = (Ok tt, calls_added (map TimerStop timers) self).
Proof.
  revert self. induction timers as [|x timers IH]; intros self;
    [reflexivity|].
  cbn [for_each]. unfold bind at 1. unfold modify at 1. now rewrite IH.
Qed.

(** What [_destroy_node] does, in one step. *)
Lemma destroy_node_result self :
  _destroy_node self
  = (Ok tt,
     set_node None
       (set_tpdo_timers []
          (calls_added (map TimerStop (_tpdo_timers self)) self))).
Proof.
  unfold _destroy_node. unfold bind at 1. unfold bind at 1.
  unfold gets at 1. rewrite for_each_timer_stop. reflexivity.
Qed.

(** X14. [_destroy_node] stops every timer once, in the order of the list,
    forgets the timers and the local node, and never raises; done a second
    time it does nothing more. *)
Theorem destroy_node_once self :
  _destroy_node self
  = (Ok tt,
     set_node None
       (set_tpdo_timers []
          (calls_added (map TimerStop (_tpdo_timers self)) self)))
  /\ (_destroy_node ;; _destroy_node) self = _destroy_node self.
Proof.
  split; [apply destroy_node_result|].
  unfold bind. rewrite (destroy_node_result self).
  rewrite destroy_node_result.
  destruct (calls_added (map TimerStop (_tpdo_timers self)) self).
  reflexivity.
Qed.

Section SupervisorMore.

Context (stack : Stack).

(** What [_disable_network] does, by cases. *)
Lemma disable_network_cases e self :
  _disable_network e self
  = (Ok tt,
     if network_truthy (_network self) then
       if disconnect_raises e then set_node None (set_network None self)
       else snd (_destroy_node
                   (set_network
                      (option_map (fun n => mkNetwork (net_nodes n) false)
                                  (_network self))
                      (call NetworkDisconnect self)))
     else snd (_destroy_node self)).
Proof.
  unfold _disable_network. unfold bind at 1. unfold bind at 1.
  unfold gets at 1.
  destruct (network_truthy (_network self)).
  - destruct (disconnect_raises e); [reflexivity|].
    unfold bind at 1. unfold modify at 1. unfold modify at 1.
    rewrite !destroy_node_result. destruct self. reflexivity.
  - unfold ret. rewrite !destroy_node_result. reflexivity.
Qed.

Lemma destroy_node_fields self :
  _node (snd (_destroy_node self)) = None
  /\ _od (snd (_destroy_node self)) = _od self
  /\ _network (snd (_destroy_node self)) = _network self.
Proof.
  rewrite destroy_node_result. cbn [snd].
  destruct (calls_added_fields (map TimerStop (_tpdo_timers self)) self)
    as (H1 & _ & H3 & _).
  destruct (calls_added (map TimerStop (_tpdo_timers self)) self).
  cbn in *. auto.
Qed.

(** X15. [_disable_network] never raises, whatever [disconnect] does.
    Afterwards the local node is gone and the dictionary is as before; the
    network object is dropped only when [disconnect] raised, otherwise it
    stays in place, marked as disconnected. *)
Theorem disable_network_result e self :
  fst (_disable_network e self) = Ok tt
  /\ _node (snd (_disable_network e self)) = None
  /\ _od (snd (_disable_network e self)) = _od self
  /\ _network (snd (_disable_network e self))
     = if network_truthy (_network self) then
         if disconnect_raises e then None
         else option_map (fun n => mkNetwork (net_nodes n) false)
                         (_network self)
       else _network self.
Proof.
  rewrite disable_network_cases. cbn [fst snd].
  split; [reflexivity|].
  destruct (network_truthy (_network self)).
  - destruct (disconnect_raises e).
    + destruct self. repeat split; reflexivity.
    + match goal with |- context [_destroy_node ?s] =>
        destruct (destroy_node_fields s) as (H1 & H2 & H3) end.
      rewrite H1, H2, H3. destruct self. repeat split; reflexivity.
  - destruct (destroy_node_fields self) as (H1 & H2 & H3).
    rewrite H1, H2, H3. repeat split; reflexivity.
Qed.

(** X16. [run] does not return by itself: as long as no [stop] call lands
    and the CANopen stack raises nothing, the loop is still running at the
    end of every schedule of passes. *)
Theorem run_keeps_running e0 ticks self :
  _event self = false ->
  stack_raises e0 = None ->
  Forall quiet ticks ->
  run stack e0 ticks self = None.
Proof.
  intros Hev He0 Hquiet. unfold run, _monitor_can.
  destruct (total_monitor_boot stack e0 He0 self) as [a Ha].
  destruct (keeps_monitor_boot stack e0 self) as [Hev0 _].
  destruct (monitor_boot stack e0 self) as [[a'|x] self0]; simpl in *;
    [|discriminate].
  destruct (monitor_loop_quiet stack ticks [] self0) as
    (self1 & Hloop & Hev1 & _); [congruence | assumption |].
  rewrite app_nil_r in Hloop. rewrite Hloop. simpl. now rewrite Hev1.
Qed.

(** With a socketcand bus a pass does nothing. *)
Lemma monitor_body_socketcand e self :
  bus_type self = "socketcand" ->
  monitor_body stack e self = (Ok tt, self).
Proof.
  intros Hbus. unfold monitor_body, bind, gets. now rewrite Hbus.
Qed.

(** X17. With a socketcand bus the loop never probes the interface: passes
    without a [stop] call leave the node exactly as it is, whatever the
    outside world shows, a missing interface included. *)
Theorem socketcand_passes_idle pre rest self :
  bus_type self = "socketcand" ->
  _event self = false ->
  Forall (fun t => stop_call t = None) pre ->
  monitor_loop stack (pre ++ rest) self = monitor_loop stack rest self.
Proof.
  intros Hbus Hev Hpre. induction Hpre as [|t pre Hstop _ IH];
    [reflexivity|].
  cbn [app monitor_loop]. rewrite Hev. unfold bind.
  rewrite monitor_body_socketcand by exact Hbus.
  unfold wait. rewrite Hstop. exact IH.
Qed.

End SupervisorMore.

Lemma run_keeps_running_witness :
  run Sample.stack sample_env
      [mkTick sample_env None; mkTick sample_env None]
      (Sample.node Sample.od_vars)
  = None.
Proof.
  apply (run_keeps_running Sample.stack sample_env
           [mkTick sample_env None; mkTick sample_env None]
           (Sample.node Sample.od_vars));
    try reflexivity.
  repeat constructor.
Defined.

Lemma socketcand_passes_idle_witness :
  monitor_loop Sample.stack
    ([mkTick Case.env_missing None; mkTick Case.env_raising None]
     ++ [mkTick Case.env_missing (Some None)]) Case.tcp_node
  = monitor_loop Sample.stack [mkTick Case.env_missing (Some None)]
      Case.tcp_node.
Proof.
  apply (socketcand_passes_idle Sample.stack
           [mkTick Case.env_missing None; mkTick Case.env_raising None]
           [mkTick Case.env_missing (Some None)] Case.tcp_node);
    try reflexivity.
  repeat constructor.
Defined.

Section SupervisorFailure.

Context (stack : Stack).

(** The start of the monitor on a bus that is not socketcand: the bus is
    restarted without EMCY, nothing else. *)
Lemma monitor_boot_plain e0 self :
  bus_type self <> "socketcand" ->
  exists self0,
    monitor_boot stack e0 self = (Ok tt, self0)
    /\ _event self0 = _event self
    /\ _reset self0 = _reset self
    /\ _network self0 = _network self
    /\ bus_type self0 = bus_type self.
Proof.
  intros Hbus. apply String.eqb_neq in Hbus.
  unfold monitor_boot, _restart_bus, bind, modify, gets, ret.
  destruct self as [od nid net node syncs reset ev bs fbr timers bt cs].
  cbn [bus_type] in Hbus.
  destruct (path_exists e0); cbn.
  - rewrite Hbus. eexists. repeat split; reflexivity.
  - destruct (root e0); cbn; rewrite Hbus; eexists; repeat split;
      reflexivity.
Qed.

Lemma bind_total_raises {A B} (m : M A) (k : A -> M B) x :
  total m ->
  (forall a self, fst (k a self) = Raise x) ->
  forall self, fst (bind m k self) = Raise x.
Proof.
  intros Hm Hk self. unfold bind. destruct (Hm self) as [a Ha].
  destruct (m self) as [[a'|e] s1]; cbn [fst] in *; [apply Hk | discriminate].
Qed.

Lemma restart_network_raises e x self :
  stack_raises e = Some x ->
  fst (_restart_network e self) = Raise x.
Proof.
  intros Hraise. unfold _restart_network. rewrite Hraise.
  revert self.
  repeat (apply bind_total_raises;
          [auto using total_setup_node with stop_db | intros _]).
  reflexivity.
Qed.

(** A pass that restarts the network while the stack raises. *)
Lemma monitor_body_raises e self x :
  bus_type self <> "socketcand" ->
  network_truthy (_network self) = false ->
  bus e = Some true ->
  path_exists e = false ->
  stack_raises e = Some x ->
  exists self1,
    monitor_body stack e self = (Raise x, self1)
    /\ _event self1 = _event self /\ _reset self1 = _reset self.
Proof.
  intros Hbus Hnet Hup Hpath Hraise. apply String.eqb_neq in Hbus.
  destruct (keeps_monitor_body stack e self) as [Hev Hre].
  assert (Hfst : fst (monitor_body stack e self) = Raise x).
  { unfold monitor_body, bind, gets. rewrite Hbus, Hup, Hpath, Hnet.
    replace (bool_decide (Some true = None)) with false
      by (symmetry; apply bool_decide_eq_false; discriminate).
    cbn [andb negb orb]. unfold modify at 1.
    pose proof (restart_network_raises e x
                  (set_bus_state BUS_UP_NETWORK_DOWN self) Hraise) as Hr.
    destruct (_restart_network e (set_bus_state BUS_UP_NETWORK_DOWN self))
      as [r s1]. exact Hr. }
  destruct (monitor_body stack e self) as [r self1]. cbn [fst snd] in *.
  subst r. exists self1. auto.
Qed.

(** X18. When the CANopen stack raises while the monitor restarts the
    network, [run] ends although [stop] was never called: it returns the
    disposition the node had, and the stop event is still clear. *)
Theorem run_ends_on_stack_exception e0 t rest self x :
  _event self = false ->
  bus_type self <> "socketcand" ->
  network_truthy (_network self) = false ->
  bus (env t) = Some true ->
  path_exists (env t) = false ->
  stack_raises (env t) = Some x ->
  exists self',
    run stack e0 (t :: rest) self = Some (Ok (_reset self), self')
    /\ _event self' = false.
Proof.
  intros Hev Hbus Hnet Hup Hpath Hraise.
  destruct (monitor_boot_plain e0 self Hbus)
    as (self0 & Hboot & Hev0 & Hre0 & Hnet0 & Hbus0).
  destruct (monitor_body_raises (env t) self0 x)
    as (self1 & Hbody & Hev1 & Hre1); try congruence.
  unfold run, _monitor_can. rewrite Hboot. cbn [monitor_loop].
  replace (_event self0) with false by congruence.
  unfold bind at 1. rewrite Hbody.
  destruct (run_end self1) as (self' & Hend & Hev' & _).
  exists self'. rewrite Hend, Hre1, Hre0. split; [reflexivity | congruence].
Qed.

End SupervisorFailure.

Lemma run_ends_on_stack_exception_witness :
  exists self',
    run Sample.stack sample_env [mkTick Case.env_raising None]
        (Sample.node Sample.od_vars)
    = Some (Ok SOFT_RESET, self')
    /\ _event self' = false.
Proof.
  apply (run_ends_on_stack_exception Sample.stack sample_env
           (mkTick Case.env_raising None) [] (Sample.node Sample.od_vars)
           OverflowError);
    try reflexivity.
  discriminate.
Defined.

(** ** More on loading the dictionary *)

(** The first loop of [setup] does not see an earlier [obj.value = x]. *)
Lemma set_defaults_assign (od : gmap Z ODEntry) idx j x :
  App.set_defaults (od_assign_value od idx (Some j) x) = App.set_defaults od.
Proof.
  unfold App.set_defaults. cbn [od_assign_value]. apply map_eq. intros k.
  rewrite !lookup_fmap.
  destruct (decide (k = idx)) as [->|Hk];
    [|now rewrite lookup_alter_ne by congruence].
  rewrite lookup_alter_eq.
  destruct (od !! idx) as [[v|subs]|]; cbn; try reflexivity.
  do 2 f_equal. apply map_eq. intros i. rewrite !lookup_fmap.
  destruct (decide (i = j)) as [->|Hi];
    [|now rewrite lookup_alter_ne by congruence].
  rewrite lookup_alter_eq. destruct (subs !! j) as [v|]; cbn; [|reflexivity].
  destruct v; reflexivity.
Qed.

Lemma set_defaults_fix_cob_ids comm base defaults id todo :
  forall (od od' : gmap Z ODEntry),
    App.fix_cob_ids comm base defaults id todo od = Ok od' ->
    App.set_defaults od' = App.set_defaults od.
Proof.
  induction todo as [|i rest IH]; intros od od' Hfix.
  - now injection Hfix as <-.
  - cbn [App.fix_cob_ids] in Hfix.
    destruct (od_getsub od (comm + i) 1) as [c|]; [|discriminate].
    cbn [rbind] in Hfix.
    destruct (Py.and_ (ODVariable.default c) (VInt 4095)) as [low|];
      [|discriminate].
    cbn [rbind] in Hfix. rewrite (IH _ _ Hfix). apply set_defaults_assign.
Qed.

Lemma set_defaults_idempotent (od : gmap Z ODEntry) :
  App.set_defaults (App.set_defaults od) = App.set_defaults od.
Proof.
  unfold App.set_defaults. apply map_eq. intros k. rewrite !lookup_fmap.
  destruct (od !! k) as [[v|subs]|]; cbn; try reflexivity.
  do 2 f_equal. apply map_eq. intros i. rewrite !lookup_fmap.
  destruct (subs !! i) as [v|]; reflexivity.
Qed.

(** X19. Loading is idempotent: [setup] run again on the dictionary it
    produced, with the same node id arguments, produces the same
    application, because it only looks at defaults and at the set of
    indices. *)
Theorem setup_idempotent eds dcf node_id app :
  App.setup eds dcf node_id = Ok app ->
  App.setup (App.od app) dcf node_id = Ok app.
Proof.
  intros Hsetup. unfold App.setup in *.
  cbn [App._load_node App.od App._node_id] in *.
  set (id := if negb (node_id =? 0) then node_id
             else match dcf with
                  | Some d => if d =? 0 then 124 else d
                  | None => 124
                  end) in *.
  destruct (App.fix_cob_ids 5120 512 _ id _ (App.set_defaults eds))
    as [od1|] eqn:H1; [|discriminate].
  cbn [rbind] in Hsetup.
  destruct (App.fix_cob_ids 6144 384 _ id _ od1) as [od2|] eqn:H2;
    [|discriminate].
  cbn [rbind] in Hsetup. injection Hsetup as <-. cbn [App.od].
  assert (Hsame : App.set_defaults od2 = App.set_defaults eds).
  { rewrite (set_defaults_fix_cob_ids _ _ _ _ _ _ _ H2).
    rewrite (set_defaults_fix_cob_ids _ _ _ _ _ _ _ H1).
    apply set_defaults_idempotent. }
  rewrite Hsame, H1. cbn [rbind]. rewrite H2. reflexivity.
Qed.

Lemma setup_idempotent_witness :
  App.setup (App.od Sample.loaded) None 0x10 = Ok Sample.loaded.
Proof.
  apply (setup_idempotent
           (Sample.eds Sample.rpdo_default Sample.tpdo_default) None 0x10
           Sample.loaded).
  vm_compute. reflexivity.
Defined.

Lemma set_defaults_value (eds : gmap Z ODEntry) idx j c0 :
  od_getsub (App.set_defaults eds) idx j = Ok c0 ->
  ODVariable.value c0 = ODVariable.default c0.
Proof.
  intros H. apply od_getsub_Ok in H as (subs0 & Hi & Hj).
  unfold App.set_defaults in Hi. rewrite lookup_fmap in Hi.
  destruct (eds !! idx) as [[v|subs]|]; simpl in Hi; try discriminate.
  injection Hi as <-. rewrite lookup_fmap in Hj.
  destruct (subs !! j) as [c|]; simpl in Hj; [|discriminate].
  injection Hj as <-. reflexivity.
Qed.

(** X20. After [setup] every variable of an array or record holds its
    default, apart from the COB-IDs (subindex 1) of the communication
    records the two repair loops went over. *)
Theorem setup_leaves_defaults eds dcf node_id app idx j c :
  App.setup eds dcf node_id = Ok app ->
  od_getsub (App.od app) idx j = Ok c ->
  ~ (j = 1
     /\ (0x1400 <= idx < 0x1400 + App.pdo_count eds 0x1400
         \/ 0x1800 <= idx < 0x1800 + App.pdo_count eds 0x1800)) ->
  ODVariable.value c = ODVariable.default c.
Proof.
  intros Hsetup Hc Hnot. unfold App.setup in Hsetup.
  cbn [App._load_node App.od App._node_id] in Hsetup.
  rewrite <- (pdo_count_ext eds (App.set_defaults eds) 0x1400) in Hsetup
    by apply set_defaults_is_Some.
  destruct (App.fix_cob_ids 5120 512 _ _ _ (App.set_defaults eds))
    as [od1|] eqn:H1; [|discriminate].
  cbn [rbind] in Hsetup.
  apply fix_cob_ids_spec in H1 as (K1 & O1 & _); [|apply NoDup_range].
  rewrite (pdo_count_ext od1 eds 0x1800) in Hsetup
    by (intros k; rewrite K1; symmetry; apply set_defaults_is_Some).
  destruct (App.fix_cob_ids 6144 384 _ _ _ od1) as [od2|] eqn:H2;
    [|discriminate].
  cbn [rbind] in Hsetup. injection Hsetup as <-. cbn [App.od] in Hc.
  apply fix_cob_ids_spec in H2 as (_ & O2 & _); [|apply NoDup_range].
  rewrite O2, O1 in Hc.
  - now apply set_defaults_value in Hc.
  - intros i Hi. apply elem_of_range in Hi.
    destruct (decide (j = 1)) as [->|]; [|now right].
    left. intros ->. apply Hnot. split; [reflexivity|]. left. lia.
  - intros i Hi. apply elem_of_range in Hi.
    destruct (decide (j = 1)) as [->|]; [|now right].
    left. intros ->. apply Hnot. split; [reflexivity|]. right. lia.
Qed.

Lemma setup_leaves_defaults_witness :
  od_getsub (App.od Sample.loaded) 0x1805 2
  = Ok (Sample.var "transmission_type" UNSIGNED8 (VInt 255))
  /\ ODVariable.value (Sample.var "transmission_type" UNSIGNED8 (VInt 255))
     = ODVariable.default
         (Sample.var "transmission_type" UNSIGNED8 (VInt 255)).
Proof.
  split; [vm_compute; reflexivity|].
  apply (setup_leaves_defaults
           (Sample.eds Sample.rpdo_default Sample.tpdo_default) None 0x10
           Sample.loaded 0x1805 2);
    [vm_compute; reflexivity | vm_compute; reflexivity |].
  intros [Hj _]. discriminate.
Defined.

(** ** The timer loop *)

(** A remainder by the literal 0 raises whatever the dividend. *)
Lemma mod_zero_raises q : exists e, Py.mod_ q (VInt 0) = Raise e.
Proof.
  unfold Py.mod_. destruct (int_of q) as [x|] eqn:Hint; cbn.
  - now exists ZeroDivisionError.
  - destruct (num_of q) as [x|]; cbn; eauto.
Qed.

Section TimerProperties.

Context (stack : Stack).

(** A pass of the timer loop leaves the node as it found it: the call of
    [send_tpdo] sits behind a remainder by [loop], which is 0. *)
Lemma timer_pass_frame num delay self :
  snd (timer_pass stack num delay self) = self.
Proof.
  unfold timer_pass, bind, lift, raise, ret.
  destruct num as [n|e]; [|reflexivity].
  destruct (timer_scan self (range n) None) as [[[[i ttype] event_time]|]|];
    try reflexivity.
  destruct (Py.eqb event_time (VInt 0) && in_ints ttype [254; 255]).
  - destruct (floordiv event_time (VInt delay)) as [q|]; [|reflexivity].
    destruct (mod_zero_raises q) as [e ->]. reflexivity.
  - destruct (delay =? 0); reflexivity.
Qed.

Lemma timer_scan_bound self t e todo :
  od_getsub (_od self) 0x1800 2 = Ok t ->
  od_getsub (_od self) 0x1800 5 = Ok e ->
  forall bound,
    timer_scan self todo bound
    = Ok (match last todo with
          | Some i => Some (i, ODVariable.value t, ODVariable.value e)
          | None => bound
          end).
Proof.
  intros Ht He. induction todo as [|i rest IH]; intros bound; [reflexivity|].
  cbn [timer_scan]. rewrite Ht, He. cbn [rbind]. rewrite IH.
  destruct rest as [|j rest]; [reflexivity|].
  change (last (i :: j :: rest)) with (last (j :: rest)).
  destruct (last (j :: rest)) eqn:Hl; [reflexivity|].
  now apply last_None in Hl.
Qed.

(** X21. [_send_timer_tpdos] never sends: however many passes the loop
    makes and however it ends, the outgoing calls and the dictionary are
    those it started with. *)
Theorem send_timer_tpdos_sends_nothing num delay stops :
  forall self out self',
    _send_timer_tpdos stack num delay stops self = Some (out, self') ->
    calls self' = calls self /\ _od self' = _od self.
Proof.
  induction stops as [|s rest IH]; intros self out self' Hrun.
  - cbn [_send_timer_tpdos] in Hrun.
    destruct (_event self); [|discriminate].
    injection Hrun as _ <-. now split.
  - cbn [_send_timer_tpdos] in Hrun.
    destruct (_event self); [injection Hrun as _ <-; now split|].
    unfold bind at 1 in Hrun.
    pose proof (timer_pass_frame num delay self) as Hframe.
    destruct (timer_pass stack num delay self) as [[[]|x] s1];
      cbn [snd] in Hframe; subst s1.
    + assert (Hstop : calls (snd ((match s with
                                   | Some reset => stop reset
                                   | None => ret tt
                                   end) self)) = calls self
                      /\ _od (snd ((match s with
                                    | Some reset => stop reset
                                    | None => ret tt
                                    end) self)) = _od self).
      { destruct s as [[r|]|]; destruct self; split; reflexivity. }
      destruct ((match s with
                 | Some reset => stop reset
                 | None => ret tt
                 end) self) as [[[]|x] s2]; cbn [snd] in Hstop.
      * apply IH in Hrun as [-> ->]. exact Hstop.
      * injection Hrun as _ <-. exact Hstop.
    + injection Hrun as _ <-. now split.
Qed.

(** X22. When the first TPDO record is timer driven (transmission type
    0xFE or 0xFF) with event time 0 and the dictionary counts at least one
    TPDO, a pass of the timer loop raises [ZeroDivisionError] and sends
    nothing. *)
Theorem timer_pass_divides_by_zero n delay self t e :
  1 <= n ->
  od_getsub (_od self) 0x1800 2 = Ok t ->
  od_getsub (_od self) 0x1800 5 = Ok e ->
  in_ints (ODVariable.value t) [0xFE; 0xFF] = true ->
  Py.eqb (ODVariable.value e) (VInt 0) = true ->
  timer_pass stack (Ok n) delay self = (Raise ZeroDivisionError, self).
Proof.
  intros Hn Ht He Htype Hzero.
  unfold timer_pass, bind, lift.
  rewrite (timer_scan_bound self t e (range n) Ht He None).
  destruct (last (range n)) as [i|] eqn:Hlast.
  - rewrite Hzero, Htype. cbn [andb].
    unfold Py.eqb in Hzero. cbn [num_of] in Hzero.
    unfold floordiv, Py.mod_. cbn [int_of num_of].
    destruct (ODVariable.value e) as [|b|z|q|s|b]; cbn [int_of num_of] in *;
      try discriminate.
    + destruct (delay =? 0); reflexivity.
    + destruct (delay =? 0); reflexivity.
    + destruct (Qeq_bool (inject_Z delay) (inject_Z 0)); reflexivity.
  - apply last_None in Hlast. unfold range in Hlast.
    apply map_eq_nil in Hlast.
    destruct (Z.to_nat n) eqn:Hk; [lia | discriminate].
Qed.

End TimerProperties.

Lemma send_timer_tpdos_sends_nothing_witness :
  _send_timer_tpdos Sample.stack (Ok 1) 100 [None; Some (Some HARD_RESET)]
    (Timed.node 1000)
  = Some (Ok tt, set_event true (set_reset HARD_RESET (Timed.node 1000)))
  /\ calls (set_event true (set_reset HARD_RESET (Timed.node 1000)))
     = calls (Timed.node 1000)
  /\ _od (set_event true (set_reset HARD_RESET (Timed.node 1000)))
     = _od (Timed.node 1000).
Proof.
  split; [vm_compute; reflexivity|].
  apply (send_timer_tpdos_sends_nothing Sample.stack (Ok 1) 100
           [None; Some (Some HARD_RESET)] (Timed.node 1000) (Ok tt)).
  vm_compute. reflexivity.
Defined.

Lemma timer_pass_divides_by_zero_witness :
  timer_pass Sample.stack (Ok 16) 100 (Timed.node 0)
  = (Raise ZeroDivisionError, Timed.node 0).
Proof.
  apply (timer_pass_divides_by_zero Sample.stack 16 100 (Timed.node 0)
           (Sample.var "transmission_type" UNSIGNED8 (VInt 0xFE))
           (Sample.var "event_timer" UNSIGNED16 (VInt 0)));
    [lia | vm_compute; reflexivity ..].
Defined.

(** ** Sending a TPDO from the application *)

Section AppPdoProperties.

Context (stack : Stack).

(** X23. [App.send_tpdo(n)] against [Node.send_tpdo(n + 1)] on the same
    rows [0x1800 + n] and [0x1A00 + n]: the application hands the mapped
    data to the network whatever its length, under the stored COB-ID, and
    returns [True]; the node masks the COB-ID to 30 bits and turns data of
    more than 8 bytes into an EMCY. *)
Theorem app_send_tpdo_against_node self n net c z maps data :
  0 <= n ->
  _network self = Some net ->
  link_silent stack self = false ->
  od_getsub (_od self) (0x1800 + n) 1 = Ok c ->
  ODVariable.value c = VInt z ->
  pdo_maps self (0x1A00 + n) = Ok maps ->
  pdo_data_loop stack self (0x1A00 + n) (range maps) [] = Ok data ->
  AppPdo.send_tpdo stack n self
  = (Ok (VBool true), call (NetworkSendMessage z data) self)
  /\ send_tpdo stack (n + 1) false self
     = (if 8 <? Z.of_nat (length data)
        then send_emcy stack (OfEnum PROTOCOL_PDO_LEN_EXCEEDED) [] false
        else modify (call (NetworkSendMessage (Z.land z 0x3FFFFFFF) data)))
         self.
Proof.
  intros Hn Hnet Hlink Hc Hz Hmaps Hdata. split.
  - unfold AppPdo.send_tpdo, AppPdo.od, AppPdo.send_message.
    unfold link_silent in Hlink.
    destruct (can_bus stack) as [isup|]; [|discriminate].
    destruct (_node self) as [node|] eqn:Hnode; [|discriminate].
    unfold bind, lift, ret, try_pass, gets, modify.
    destruct isup; cbn [andb] in Hlink;
      [rewrite Hlink|]; rewrite ?Hnode, Hc, Hmaps, Hdata, Hz, Hnet;
      reflexivity.
  - rewrite send_tpdo_rows by lia.
    replace (n + 1 - 1) with n by lia.
    apply (send_pdo_reaches_test stack self _ _ false net
             (Z.land z 0x3FFFFFFF) maps data); try assumption.
    unfold pdo_cob_id. rewrite Hc. cbn [rbind]. rewrite Hz. reflexivity.
Qed.

(** X24. Without a network object [App.send_tpdo] still returns [True]:
    the failed call is caught, and no frame leaves; [Node.send_tpdo] on the
    same mapping raises [NetworkError] instead. *)
Theorem app_send_tpdo_without_network self n c maps data :
  0 <= n ->
  _network self = None ->
  link_silent stack self = false ->
  od_getsub (_od self) (0x1800 + n) 1 = Ok c ->
  pdo_maps self (0x1A00 + n) = Ok maps ->
  pdo_data_loop stack self (0x1A00 + n) (range maps) [] = Ok data ->
  AppPdo.send_tpdo stack n self = (Ok (VBool true), self)
  /\ send_tpdo stack (n + 1) true self = (Raise NetworkError, self).
Proof.
  intros Hn Hnet Hlink Hc Hmaps Hdata. split.
  - unfold AppPdo.send_tpdo, AppPdo.od, AppPdo.send_message.
    unfold link_silent in Hlink.
    destruct (can_bus stack) as [isup|]; [|discriminate].
    destruct (_node self) as [node|] eqn:Hnode; [|discriminate].
    unfold bind, lift, ret, try_pass, gets, raise.
    destruct isup; cbn [andb] in Hlink;
      [rewrite Hlink|]; rewrite ?Hnode, Hc, Hmaps, Hdata, Hnet;
      reflexivity.
  - rewrite send_tpdo_rows by lia. unfold _send_pdo. now rewrite Hnet.
Qed.

End AppPdoProperties.

Lemma app_send_tpdo_against_node_witness :
  AppPdo.send_tpdo Sample.stack 1 (Sample.node_up (Sample.od_pdo (fun _ => 255)))
  = (Ok (VBool true),
     call (NetworkSendMessage 0x290
             (Sample.le_bytes 8 1 ++ Sample.le_bytes 1 0xAA))
          (Sample.node_up (Sample.od_pdo (fun _ => 255))))
  /\ send_tpdo Sample.stack 2 false
       (Sample.node_up (Sample.od_pdo (fun _ => 255)))
     = (Ok tt,
        call (EmcySend 0x8220 (VInt 0) [])
             (Sample.node_up (Sample.od_pdo (fun _ => 255)))).
Proof.
  pose proof (app_send_tpdo_against_node Sample.stack
                (Sample.node_up (Sample.od_pdo (fun _ => 255))) 1
                (mkNetwork 1 true)
                (Sample.var "cob_id" UNSIGNED32 (VInt 0x290)) 0x290 2
                (Sample.le_bytes 8 1 ++ Sample.le_bytes 1 0xAA)) as H.
  destruct H as [Happ Hnode]; try (vm_compute; reflexivity); [lia|].
  split; [exact Happ|].
  change (1 + 1) with 2 in Hnode. rewrite Hnode. vm_compute. reflexivity.
Defined.

Lemma app_send_tpdo_without_network_witness :
  AppPdo.send_tpdo Sample.stack 0
    (set_network None (Sample.node_up (Sample.od_pdo (fun _ => 255))))
  = (Ok (VBool true),
     set_network None (Sample.node_up (Sample.od_pdo (fun _ => 255))))
  /\ send_tpdo Sample.stack (0 + 1) true
       (set_network None (Sample.node_up (Sample.od_pdo (fun _ => 255))))
     = (Raise NetworkError,
        set_network None (Sample.node_up (Sample.od_pdo (fun _ => 255)))).
Proof.
  apply (app_send_tpdo_without_network Sample.stack
           (set_network None (Sample.node_up (Sample.od_pdo (fun _ => 255))))
           0 (Sample.var "cob_id" UNSIGNED32 (VInt 0x190)) 2
           (Sample.le_bytes 4 0x11223344 ++ Sample.le_bytes 4 0x55667788));
    [lia | vm_compute; reflexivity ..].
Defined.

(** ** The node id and the heartbeat *)

(** X25. The node id that [setup] settles on is never 0: it is the
    argument unless that is 0, else the id of the DCF unless that is
    missing or 0, else 0x7C. *)
Theorem setup_node_id eds dcf node_id app :
  App.setup eds dcf node_id = Ok app ->
  App._node_id app <> 0
  /\ (node_id <> 0 -> App._node_id app = node_id)
  /\ (node_id = 0 ->
      App._node_id app = match dcf with
                         | Some d => if d =? 0 then 0x7C else d
                         | None => 0x7C
                         end).
Proof.
  intros Hsetup. unfold App.setup in Hsetup.
  cbn [App._load_node App.od App._node_id] in Hsetup.
  destruct (App.fix_cob_ids 5120 512 _ _ _ (App.set_defaults eds))
    as [od1|]; [|discriminate].
  cbn [rbind] in Hsetup.
  destruct (App.fix_cob_ids 6144 384 _ _ _ od1) as [od2|]; [|discriminate].
  cbn [rbind] in Hsetup. injection Hsetup as <-. cbn [App._node_id].
  destruct (node_id =? 0) eqn:Hid; cbn [negb].
  - apply Z.eqb_eq in Hid. split; [|split; [congruence | reflexivity]].
    destruct dcf as [d|]; [|lia].
    destruct (d =? 0) eqn:Hd; [lia | now apply Z.eqb_neq in Hd].
  - apply Z.eqb_neq in Hid. split; [|split]; congruence.
Qed.

Lemma setup_node_id_witness :
  App._node_id Sample.loaded <> 0
  /\ (0x10 <> 0 -> App._node_id Sample.loaded = 0x10)
  /\ (0x10 = 0 -> App._node_id Sample.loaded = 0x7C).
Proof.
  apply (setup_node_id (Sample.eds Sample.rpdo_default Sample.tpdo_default)
           None 0x10 Sample.loaded).
  vm_compute. reflexivity.
Defined.

Section HeartbeatProperties.

Context (stack : Stack).

(** X26. When the heartbeat cannot be started, [_restart_network] still
    returns with the network in place and the SYNC subscription made, but
    the local node is left out of the operational state: with the interface
    up every later [send_tpdo] returns without sending. *)
Theorem no_heartbeat_no_pdo e self n :
  heartbeat_raises e = true ->
  stack_raises e = None ->
  can_bus stack = Some true ->
  1 <= n ->
  exists self',
    _restart_network e self = (Ok tt, self')
    /\ network_truthy (_network self') = true
    /\ last (calls self') = Some NetworkSubscribeSync
    /\ send_tpdo stack n false self' = (Ok tt, self').
Proof.
  intros Hbeat Hstack Hbus Hn.
  unfold _restart_network, _setup_node. rewrite Hbeat, Hstack.
  unfold bind, modify, gets, ret, try_pass, raise.
  cbn [set_network _od_node_id].
  assert (Hgo : forall s : Node,
            _network s <> None ->
            _node s = Some (mkLocalNode "INITIALISING") ->
            send_tpdo stack n false s = (Ok tt, s)).
  { intros s Hnet Hnode. rewrite send_tpdo_rows by lia.
    unfold _send_pdo, link_silent. rewrite Hbus, Hnode.
    destruct (_network s); [reflexivity | congruence]. }
  destruct (_od_node_id self) as [id|];
    destruct (od_getitem (_od self) 4119) as [[v|subs]|x] eqn:Hget;
    cbn [set_od_node_id set_node set_network call _od rbind as_variable];
    rewrite ?Hget; cbn [rbind as_variable];
    (eexists; split; [reflexivity|]);
    (split; [reflexivity|]);
    (split; [cbn [calls call]; apply last_snoc|]);
    (apply Hgo; [discriminate | reflexivity]).
Qed.

End HeartbeatProperties.

Lemma no_heartbeat_no_pdo_witness :
  exists self',
    _restart_network (mkEnv (Some true) false false false true None)
      (Sample.node (Sample.od_pdo (fun _ => 255)))
    = (Ok tt, self')
    /\ network_truthy (_network self') = true
    /\ last (calls self') = Some NetworkSubscribeSync
    /\ send_tpdo Sample.stack 1 false self' = (Ok tt, self').
Proof.
  apply (no_heartbeat_no_pdo Sample.stack
           (mkEnv (Some true) false false false true None)
           (Sample.node (Sample.od_pdo (fun _ => 255))) 1);
    [reflexivity | reflexivity | reflexivity | lia].
Defined.

(** ** Enumerations *)

(** X27. [od_write_enum] never stores: for every dictionary, every table
    of value descriptions and every argument it raises and leaves the node
    as it was. *)
Theorem od_write_enum_never_stores
    (value_descriptions : ODVariable.t -> gmap Z string)
    index subindex value self :
  exists e,
    od_write_enum value_descriptions index subindex value self
    = (Raise e, self).
Proof.
  unfold od_write_enum, bind, lift, raise.
  destruct (od_get_obj index subindex self) as [obj|e]; [|eauto].
  destruct (as_variable obj) as [v|e]; [|eauto].
  destruct (map fst (map_to_list (value_descriptions v))) as [|k keys].
  - cbn [swap_descriptions]. rewrite lookup_empty. eauto.
  - cbn. eauto.
Qed.
